(** * vtkSinglePassVolumeMapper: a shallow embedding and its properties

    Source: Rendering/Volume2/vtkSinglePassVolumeMapper.cxx.

    Conventions of the embedding.
    - [double] and [float] values are exact rationals ([Q]); rounding is not
      modelled.  [Q] division by zero yields 0 where C++ yields an infinity,
      so a quotient stands for the source's value only where its divisor
      is non-zero.
    - [int] values are integers ([Z]); where the source does arithmetic on
      them the 32-bit wrap-around is written out ([int_wrap]).
    - Fixed-size C arrays ([double Bounds[6]], [int Extents[6]], ...) are
      lists read with [!!!] and written with [<[i:=v]>]; every index the
      source computes is in range, and the length of each array is part of
      the well-formedness predicates below.
    - A pointer that may be null is an [option]; an object reached through a
      pointer argument and mutated by the callee is returned by the callee.
    - OpenGL, the shader wrapper, the lookup tables and the VTK error
      channels are effects: each call is appended to an event log.  What
      the device answers ([glewIsSupported], [GL_MAX_TEXTURE_SIZE],
      [glGetError]) is read from a [Platform] record.
    - [assert] stops the process unless the build defines [NDEBUG]; a method
      therefore produces a [result]: a value, or the reason the process
      stopped. *)

From Stdlib Require Import ZArith QArith Lia Lqa String.
From stdpp Require Import base list.

Local Open Scope string_scope.
Local Open Scope list_scope.
Local Open Scope Z_scope.

#[global] Instance Q_inhabited : Inhabited Q := populate 0%Q.

(** ** Scalars, constants and small helpers *)

(** [raw < 0] on doubles, as a boolean. *)
Definition Qltb (x y : Q) : bool :=
  match Qcompare x y with Lt => true | _ => false end.

(** Wrap-around of a 32-bit signed [int]. *)
Definition int_wrap (z : Z) : Z := (z + 2 ^ 31) mod 2 ^ 32 - 2 ^ 31.

(** The scalar type codes of vtkType.h, as [vtkDataArray::GetDataType]
    reports them. *)
Inductive vtkScalarType :=
| VTK_VOID | VTK_BIT | VTK_CHAR | VTK_UNSIGNED_CHAR | VTK_SHORT
| VTK_UNSIGNED_SHORT | VTK_INT | VTK_UNSIGNED_INT | VTK_LONG
| VTK_UNSIGNED_LONG | VTK_FLOAT | VTK_DOUBLE | VTK_ID_TYPE | VTK_STRING
| VTK_OPAQUE | VTK_SIGNED_CHAR | VTK_LONG_LONG | VTK_UNSIGNED_LONG_LONG
| VTK___INT64 | VTK_UNSIGNED___INT64 | VTK_VARIANT | VTK_OBJECT
| VTK_UNICODE_STRING.

#[global] Instance vtkScalarType_eq_dec : EqDecision vtkScalarType.
Proof. solve_decision. Defined.

(** The limits of vtkType.h used by the encoder. *)
Definition VTK_UNSIGNED_CHAR_MAX : Z := 255.
Definition VTK_SIGNED_CHAR_MAX : Z := 127.
Definition VTK_SHORT_MAX : Z := 32767.
Definition VTK_UNSIGNED_SHORT_MAX : Z := 65535.
Definition VTK_INT_MAX : Z := 2147483647.
Definition VTK_INT_MIN : Z := -2147483648.
Definition VTK_UNSIGNED_INT_MAX : Z := 4294967295.

(** The blend modes of vtkVolumeMapper; [BlendMode] is an [int], so any
    other value is possible too. *)
Inductive vtkBlendMode :=
| COMPOSITE_BLEND | MAXIMUM_INTENSITY_BLEND | MINIMUM_INTENSITY_BLEND
| ADDITIVE_BLEND | OTHER_BLEND (code : Z).

#[global] Instance vtkBlendMode_eq_dec : EqDecision vtkBlendMode.
Proof. solve_decision. Defined.

(** The OpenGL enumerants the encoder chooses from; [GL_NONE] is the value 0
    the three locals of [LoadVolume] start with. *)
Inductive GLenum :=
| GL_NONE | GL_RGBA16 | GL_RGBA | GL_RED | GL_INTENSITY8 | GL_INTENSITY16
| INTENSITY16F_ARB | GL_UNSIGNED_BYTE | GL_BYTE | GL_UNSIGNED_SHORT
| GL_SHORT | GL_UNSIGNED_INT | GL_INT | GL_FLOAT.

#[global] Instance GLenum_eq_dec : EqDecision GLenum.
Proof. solve_decision. Defined.

(** ** The objects the mapper works on *)

(** A control point of a colour transfer function. *)
Record vtkColorNode := { node_x : Q; node_r : Q; node_g : Q; node_b : Q }.

(** Modelled from the spec: vtkColorTransferFunction and vtkPiecewiseFunction
    (their sources are not part of the file under study).  A transfer
    function is the ordered sequence of its control points, [GetSize] is the
    number of points, and adding a point appends it. *)
Definition vtkColorTransferFunction := list vtkColorNode.
Definition vtkPiecewiseFunction := list (Q * Q).

Definition AddRGBPoint (x r g b : Q) (f : vtkColorTransferFunction)
  : vtkColorTransferFunction :=
  f ++ [ {| node_x := x; node_r := r; node_g := g; node_b := b |} ].

Definition AddPoint (x y : Q) (f : vtkPiecewiseFunction)
  : vtkPiecewiseFunction :=
  f ++ [ (x, y) ].

Definition GetSize {A} (f : list A) : Z := Z.of_nat (length f).

Record vtkVolumeProperty := {
  RGBTransferFunction : vtkColorTransferFunction;  (* GetRGBTransferFunction(0) *)
  ScalarOpacity : vtkPiecewiseFunction;            (* GetScalarOpacity() *)
  IndependentComponents : Z;
  LinearInterpolation : bool;  (* GetInterpolationType() == VTK_LINEAR_INTERPOLATION *)
  ScalarOpacityUnitDistance : Q;
  Shade : Z                                        (* GetShade(0) *)
}.

Record vtkVolume := {
  Property : vtkVolumeProperty;
  Matrix : list Q                                  (* 4x4, row major *)
}.

Record vtkRenderer := {
  Aspect : Q * Q;
  ProjectionTransformMatrix : Q -> list Q;  (* of the active camera, by aspect ratio *)
  ViewTransformMatrix : list Q;
  CameraPosition : list Q
}.

Record vtkDataArray := {
  DataType : vtkScalarType;
  NumberOfComponents : Z;
  Range : Q * Q
}.

(** The input image.  [Scalars] and [ScalarsCellFlag] are what
    [vtkAbstractMapper::GetScalars] finds on it for the mapper's scalar mode,
    access mode, array id and array name: the array (or null) and the
    association it writes to its last argument (0 point, 1 cell, 2 field).
    The record describes the data once the upstream pipeline is up to date. *)
Record vtkImageData := {
  Extent : list Z;
  Spacing : list Q;
  Origin : list Q;
  MTime : N;
  Scalars : option vtkDataArray;
  ScalarsCellFlag : Z
}.

(** ** The private implementation object *)

(** The members of [vtkSinglePassVolumeMapper::vtkInternal] that the methods
    below read or write.  The OpenGL handles ([CubeVBOId], [VolumeTextureId],
    ...) are chosen by the device and only passed back to it; the calls that
    use them appear in the event log by name.  [RGBTable] and
    [OpacityTables] are pointers to the lookup tables, whose contents live on
    the device: the record keeps whether they point to an object. *)
Module vtkInternal.

Record t := {
  Initialized : bool;
  CellFlag : Z;
  TextureSize : list Z;
  BlendMode : vtkBlendMode;  (* never assigned in the source *)
  ScalarsRange : list Q;
  Bounds : list Q;
  Extents : list Z;
  StepSize : list Q;
  CellScale : list Q;
  Scale : Q;
  NoiseTextureData : option (list Q);  (* None: the null pointer *)
  NoiseTextureSize : Z;
  RGBTable : bool;  (* true: points to a table; false: null *)
  OpacityTables : bool;  (* true: points to the tables *)
  VolumeBuildTime : N
}.

Definition set_CellFlag v (s : t) : t :=
  {| Initialized := Initialized s; CellFlag := v;
     TextureSize := TextureSize s; BlendMode := BlendMode s;
     ScalarsRange := ScalarsRange s; Bounds := Bounds s;
     Extents := Extents s; StepSize := StepSize s; CellScale := CellScale s;
     Scale := Scale s; NoiseTextureData := NoiseTextureData s;
     NoiseTextureSize := NoiseTextureSize s; RGBTable := RGBTable s;
     OpacityTables := OpacityTables s;
     VolumeBuildTime := VolumeBuildTime s |}.

Definition set_TextureSize v (s : t) : t :=
  {| Initialized := Initialized s; CellFlag := CellFlag s; TextureSize := v;
     BlendMode := BlendMode s; ScalarsRange := ScalarsRange s;
     Bounds := Bounds s; Extents := Extents s; StepSize := StepSize s;
     CellScale := CellScale s; Scale := Scale s;
     NoiseTextureData := NoiseTextureData s;
     NoiseTextureSize := NoiseTextureSize s; RGBTable := RGBTable s;
     OpacityTables := OpacityTables s;
     VolumeBuildTime := VolumeBuildTime s |}.

Definition set_ScalarsRange v (s : t) : t :=
  {| Initialized := Initialized s; CellFlag := CellFlag s;
     TextureSize := TextureSize s; BlendMode := BlendMode s;
     ScalarsRange := v; Bounds := Bounds s; Extents := Extents s;
     StepSize := StepSize s; CellScale := CellScale s; Scale := Scale s;
     NoiseTextureData := NoiseTextureData s;
     NoiseTextureSize := NoiseTextureSize s; RGBTable := RGBTable s;
     OpacityTables := OpacityTables s;
     VolumeBuildTime := VolumeBuildTime s |}.

Definition set_Bounds v (s : t) : t :=
  {| Initialized := Initialized s; CellFlag := CellFlag s;
     TextureSize := TextureSize s; BlendMode := BlendMode s;
     ScalarsRange := ScalarsRange s; Bounds := v; Extents := Extents s;
     StepSize := StepSize s; CellScale := CellScale s; Scale := Scale s;
     NoiseTextureData := NoiseTextureData s;
     NoiseTextureSize := NoiseTextureSize s; RGBTable := RGBTable s;
     OpacityTables := OpacityTables s;
     VolumeBuildTime := VolumeBuildTime s |}.

Definition set_Extents v (s : t) : t :=
  {| Initialized := Initialized s; CellFlag := CellFlag s;
     TextureSize := TextureSize s; BlendMode := BlendMode s;
     ScalarsRange := ScalarsRange s; Bounds := Bounds s; Extents := v;
     StepSize := StepSize s; CellScale := CellScale s; Scale := Scale s;
     NoiseTextureData := NoiseTextureData s;
     NoiseTextureSize := NoiseTextureSize s; RGBTable := RGBTable s;
     OpacityTables := OpacityTables s;
     VolumeBuildTime := VolumeBuildTime s |}.

Definition set_StepSize v (s : t) : t :=
  {| Initialized := Initialized s; CellFlag := CellFlag s;
     TextureSize := TextureSize s; BlendMode := BlendMode s;
     ScalarsRange := ScalarsRange s; Bounds := Bounds s;
     Extents := Extents s; StepSize := v; CellScale := CellScale s;
     Scale := Scale s; NoiseTextureData := NoiseTextureData s;
     NoiseTextureSize := NoiseTextureSize s; RGBTable := RGBTable s;
     OpacityTables := OpacityTables s;
     VolumeBuildTime := VolumeBuildTime s |}.

Definition set_CellScale v (s : t) : t :=
  {| Initialized := Initialized s; CellFlag := CellFlag s;
     TextureSize := TextureSize s; BlendMode := BlendMode s;
     ScalarsRange := ScalarsRange s; Bounds := Bounds s;
     Extents := Extents s; StepSize := StepSize s; CellScale := v;
     Scale := Scale s; NoiseTextureData := NoiseTextureData s;
     NoiseTextureSize := NoiseTextureSize s; RGBTable := RGBTable s;
     OpacityTables := OpacityTables s;
     VolumeBuildTime := VolumeBuildTime s |}.

Definition set_Scale v (s : t) : t :=
  {| Initialized := Initialized s; CellFlag := CellFlag s;
     TextureSize := TextureSize s; BlendMode := BlendMode s;
     ScalarsRange := ScalarsRange s; Bounds := Bounds s;
     Extents := Extents s; StepSize := StepSize s; CellScale := CellScale s;
     Scale := v; NoiseTextureData := NoiseTextureData s;
     NoiseTextureSize := NoiseTextureSize s; RGBTable := RGBTable s;
     OpacityTables := OpacityTables s;
     VolumeBuildTime := VolumeBuildTime s |}.

Definition set_VolumeBuildTime v (s : t) : t :=
  {| Initialized := Initialized s; CellFlag := CellFlag s;
     TextureSize := TextureSize s; BlendMode := BlendMode s;
     ScalarsRange := ScalarsRange s; Bounds := Bounds s;
     Extents := Extents s; StepSize := StepSize s; CellScale := CellScale s;
     Scale := Scale s; NoiseTextureData := NoiseTextureData s;
     NoiseTextureSize := NoiseTextureSize s; RGBTable := RGBTable s;
     OpacityTables := OpacityTables s; VolumeBuildTime := v |}.

Definition set_NoiseTexture data size (s : t) : t :=
  {| Initialized := Initialized s; CellFlag := CellFlag s;
     TextureSize := TextureSize s; BlendMode := BlendMode s;
     ScalarsRange := ScalarsRange s; Bounds := Bounds s;
     Extents := Extents s; StepSize := StepSize s; CellScale := CellScale s;
     Scale := Scale s; NoiseTextureData := data; NoiseTextureSize := size;
     RGBTable := RGBTable s; OpacityTables := OpacityTables s;
     VolumeBuildTime := VolumeBuildTime s |}.

Definition set_tables rgb op (s : t) : t :=
  {| Initialized := Initialized s; CellFlag := CellFlag s;
     TextureSize := TextureSize s; BlendMode := BlendMode s;
     ScalarsRange := ScalarsRange s; Bounds := Bounds s;
     Extents := Extents s; StepSize := StepSize s; CellScale := CellScale s;
     Scale := Scale s; NoiseTextureData := NoiseTextureData s;
     NoiseTextureSize := NoiseTextureSize s; RGBTable := rgb;
     OpacityTables := op; VolumeBuildTime := VolumeBuildTime s |}.

Definition set_Initialized v (s : t) : t :=
  {| Initialized := v; CellFlag := CellFlag s; TextureSize := TextureSize s;
     BlendMode := BlendMode s; ScalarsRange := ScalarsRange s;
     Bounds := Bounds s; Extents := Extents s; StepSize := StepSize s;
     CellScale := CellScale s; Scale := Scale s;
     NoiseTextureData := NoiseTextureData s;
     NoiseTextureSize := NoiseTextureSize s; RGBTable := RGBTable s;
     OpacityTables := OpacityTables s;
     VolumeBuildTime := VolumeBuildTime s |}.

(** The constructor [vtkInternal(parent)].  It leaves [BlendMode],
    [ScalarsRange], [Bounds], [StepSize], [Scale], [NoiseTextureSize] and
    [OpacityTables] uninitialised: [garbage] is what the memory holds. *)
Definition create (garbage : t) : t :=
  {| Initialized := false; CellFlag := 0; TextureSize := [-1; -1; -1];
     BlendMode := BlendMode garbage; ScalarsRange := ScalarsRange garbage;
     Bounds := Bounds garbage;
     Extents := [VTK_INT_MAX; VTK_INT_MIN; VTK_INT_MAX; VTK_INT_MIN;
                 VTK_INT_MAX; VTK_INT_MIN];
     StepSize := StepSize garbage; CellScale := [0%Q; 0%Q; 0%Q];
     Scale := Scale garbage; NoiseTextureData := None;
     NoiseTextureSize := NoiseTextureSize garbage; RGBTable := false;
     OpacityTables := OpacityTables garbage; VolumeBuildTime := 0%N |}.

(** The arrays have the sizes their declarations give them. *)
Definition wf (s : t) : Prop :=
  length (TextureSize s) = 3%nat /\ length (ScalarsRange s) = 2%nat /\
  length (Bounds s) = 6%nat /\ length (Extents s) = 6%nat /\
  length (StepSize s) = 3%nat /\ length (CellScale s) = 3%nat.

(** *** ComputeBounds *)

(** [swapBounds[i] = (spacing[i] < 0)] *)
Definition swapBound (s : Q) : nat := if Qltb s 0 then 1%nat else 0%nat.

(** The branch for point data: six assignments, in source order. *)
Definition ComputeBounds_points (Extents : list Z) (origin spacing : list Q)
    (swapBounds : list nat) (B : list Q) : list Q :=
  let B := <[0%nat := (origin !!! 0%nat +
    inject_Z (Extents !!! (0 + swapBounds !!! 0%nat)%nat) * spacing !!! 0%nat)%Q]> B in
  let B := <[2%nat := (origin !!! 1%nat +
    inject_Z (Extents !!! (2 + swapBounds !!! 1%nat)%nat) * spacing !!! 1%nat)%Q]> B in
  let B := <[4%nat := (origin !!! 2%nat +
    inject_Z (Extents !!! (4 + swapBounds !!! 2%nat)%nat) * spacing !!! 2%nat)%Q]> B in
  let B := <[1%nat := (origin !!! 0%nat +
    inject_Z (Extents !!! (1 - swapBounds !!! 0%nat)%nat) * spacing !!! 0%nat)%Q]> B in
  let B := <[3%nat := (origin !!! 1%nat +
    inject_Z (Extents !!! (3 - swapBounds !!! 1%nat)%nat) * spacing !!! 1%nat)%Q]> B in
  let B := <[5%nat := (origin !!! 2%nat +
    inject_Z (Extents !!! (5 - swapBounds !!! 2%nat)%nat) * spacing !!! 2%nat)%Q]> B in
  B.

(** [i = 1; while (i < 6) { wholeTextureExtent[i]--; i += 2; }] *)
Definition decrement_upper (whole : list Z) : list Z :=
  foldl (fun w i => <[i := int_wrap (w !!! i - 1)]> w) whole
        [1%nat; 3%nat; 5%nat].

(** One turn of the second loop of the branch for cell data. *)
Definition ComputeBounds_cells_axis (Extents whole : list Z)
    (origin spacing : list Q) (swapBounds : list nat)
    (B : list Q) (i : nat) : list Q :=
  let B :=
    if Extents !!! (2 * i)%nat =? whole !!! (2 * i)%nat
    then <[(2 * i + swapBounds !!! i)%nat := origin !!! i]> B
    else <[(2 * i + swapBounds !!! i)%nat :=
             (origin !!! i +
              (inject_Z (Extents !!! (2 * i)%nat) + (1 # 2))
              * spacing !!! i)%Q]> B in
  let B :=
    if Extents !!! (2 * i + 1)%nat =? whole !!! (2 * i + 1)%nat
    then <[(2 * i + 1 - swapBounds !!! i)%nat :=
             (origin !!! i +
              (inject_Z (Extents !!! (2 * i + 1)%nat) + 1)
              * spacing !!! i)%Q]> B
    else <[(2 * i + 1 - swapBounds !!! i)%nat :=
             (origin !!! i +
              (inject_Z (Extents !!! (2 * i + 1)%nat) + (1 # 2))
              * spacing !!! i)%Q]> B in
  B.

(** [i = 0; while (i < 3) { ...; ++i; }] *)
Definition ComputeBounds_cells (Extents whole : list Z)
    (origin spacing : list Q) (swapBounds : list nat) (B : list Q) : list Q :=
  foldl (ComputeBounds_cells_axis Extents whole origin spacing swapBounds)
        B [0%nat; 1%nat; 2%nat].

Definition ComputeBounds (input : vtkImageData) (s : t) : t :=
  let spacing := Spacing input in
  let origin := Origin input in
  let s := set_Extents (Extent input) s in
  let swapBounds := [swapBound (spacing !!! 0%nat);
                     swapBound (spacing !!! 1%nat);
                     swapBound (spacing !!! 2%nat)] in
  if CellFlag s =? 0
  then set_Bounds
         (ComputeBounds_points (Extents s) origin spacing swapBounds
                               (Bounds s)) s
  else
    let wholeTextureExtent := decrement_upper (Extent input) in
    set_Bounds
      (ComputeBounds_cells (Extents s) wholeTextureExtent origin spacing
                           swapBounds (Bounds s)) s.

(** *** IsInitialized and IsDataDirty *)

Definition IsInitialized (s : t) : bool := Initialized s.

Definition IsDataDirty (input : vtkImageData) (s : t) : bool :=
  if (VolumeBuildTime s <? MTime input)%N then true else false.

End vtkInternal.

(** ** The mapper, the world around it and the effects *)

(** The members of the mapper itself that the methods use: [Bounds] is the
    array inherited from vtkAbstractMapper3D, [BlendMode] the member of
    vtkVolumeMapper, [Input] what [GetInput()] returns. *)
Record vtkSinglePassVolumeMapper := {
  Bounds : list Q;
  BlendMode : vtkBlendMode;
  SampleDistance : Q;
  Input : option vtkImageData;
  Implementation : vtkInternal.t
}.

Definition set_Implementation (i : vtkInternal.t)
    (m : vtkSinglePassVolumeMapper) : vtkSinglePassVolumeMapper :=
  {| Bounds := Bounds m; BlendMode := BlendMode m;
     SampleDistance := SampleDistance m; Input := Input m;
     Implementation := i |}.

(** The constructor of the mapper. *)
Definition create (bounds : list Q) (blend : vtkBlendMode)
    (input : option vtkImageData) (garbage : vtkInternal.t)
  : vtkSinglePassVolumeMapper :=
  {| Bounds := bounds; BlendMode := blend; SampleDistance := 1;
     Input := input; Implementation := vtkInternal.create garbage |}.

(** Everything a method call can tell the outside world. *)
Inductive event :=
| vtkErrorMacro (msg : string)
| std_cerr (msg : string)
| std_cout (msg : string)
| InvokeEvent (name : string)
| InputAlgorithm_Update
| RenderWindow_MakeCurrent
| Volume_Update
| gl (call : string)
| Shader (call : string) (name : string)
| glTexImage3D (internalFormat : GLenum) (w h d : Z) (format type : GLenum)
| glTexImage2D (size : Z) (data : option (list Q))
| glBufferData_vertices (vertices : list (list Q))
| glBufferData_indices (indices : list Z)
| glUniform1i (name : string) (v : Z)
| glUniform1f (name : string) (v : Q)
| glUniform3f (name : string) (x y z : Q)
| glUniform3fv (name : string) (v : list Q)
| glUniformMatrix4fv (name : string) (m : list Q)
| glDrawElements (count : Z)
| RGBTable_Update (f : vtkColorTransferFunction) (range : list Q)
                  (linear : bool)
| RGBTable_Bind
| OpacityTable_Update (level : Z) (f : vtkPiecewiseFunction)
                      (blend : vtkBlendMode) (sampleDistance : Q)
                      (range : list Q) (unitDistance : Q) (linear : bool)
| OpacityTable_Bind (level : Z).

(** The places where the source polls the error flag of the device with
    [GL_CHECK_ERRORS]. *)
Inductive check_site :=
| Check_Initialize
| Check_LoadVolume_parameters | Check_LoadVolume_upload
| Check_Geometry_vertices | Check_Geometry_indices
| Check_GPURender_resources | Check_GPURender_blending.

(** The build and the graphics device. *)
Record Platform := {
  NDEBUG : bool;                      (* assertions compiled out *)
  glewInit_OK : bool;
  GLEW_VERSION_3_3 : bool;
  GL_ARB_texture_float : bool;        (* glewIsSupported *)
  GL_MAX_TEXTURE_SIZE : Z;
  GL_NO_ERROR_at : check_site -> bool;  (* glGetError() == GL_NO_ERROR *)
  (* vtkPerlinNoise::EvaluateFunction(i, j, 0.0) for frequency (size, 1, 1),
     phase 0 and the given amplitude *)
  PerlinNoise : Z -> Q -> Z -> Z -> Q
}.

(** [GlobalMTime] is the process-wide counter behind vtkTimeStamp. *)
Record World := {
  this : vtkSinglePassVolumeMapper;
  GlobalMTime : N;
  log : list event
}.

Inductive failure := AssertionFailed | NullDereference.

Inductive result (A : Type) :=
| Val (a : A)
| Abort (why : failure).
Arguments Val {A} a.
Arguments Abort {A} why.

Definition M (A : Type) : Type := World -> result A * World.

Definition ret {A} (a : A) : M A := fun w => (Val a, w).

Definition bind {A B} (c : M A) (k : A -> M B) : M B :=
  fun w => match c w with
           | (Val a, w') => k a w'
           | (Abort why, w') => (Abort why, w')
           end.

Notation "x <- c ;; k" := (bind c (fun x => k))
  (at level 100, c at next level, right associativity).
Notation "c ;; k" := (bind c (fun _ => k))
  (at level 100, right associativity).

Definition abort {A} (why : failure) : M A := fun w => (Abort why, w).

Definition emit (e : event) : M unit :=
  fun w => (Val tt, {| this := this w; GlobalMTime := GlobalMTime w;
                       log := log w ++ [e] |}).

Definition emits (es : list event) : M unit :=
  fun w => (Val tt, {| this := this w; GlobalMTime := GlobalMTime w;
                       log := log w ++ es |}).

Definition get_this : M vtkSinglePassVolumeMapper := fun w => (Val (this w), w).

Definition impl : M vtkInternal.t :=
  fun w => (Val (Implementation (this w)), w).

Definition update (f : vtkInternal.t -> vtkInternal.t) : M unit :=
  fun w => (Val tt,
            {| this := set_Implementation (f (Implementation (this w))) (this w);
               GlobalMTime := GlobalMTime w; log := log w |}).

(** [assert(c)] *)
Definition assert (p : Platform) (c : bool) : M unit :=
  if NDEBUG p then ret tt
  else if c then ret tt else abort AssertionFailed.

(** [GL_CHECK_ERRORS] *)
Definition GL_CHECK_ERRORS (p : Platform) (site : check_site) : M unit :=
  assert p (GL_NO_ERROR_at p site).

(** Dereferencing a pointer. *)
Definition deref {A} (ptr : option A) : M A :=
  match ptr with Some a => ret a | None => abort NullDereference end.

(** Modelled from the spec: [vtkTimeStamp::Modified] (vtkTimeStamp is not
    part of the file under study).  The build timestamp is a monotonic
    marker: it takes the next value of the process-wide counter. *)
Definition VolumeBuildTime_Modified : M unit :=
  fun w =>
    let now := (GlobalMTime w + 1)%N in
    (Val tt,
     {| this := set_Implementation
                  (vtkInternal.set_VolumeBuildTime now (Implementation (this w)))
                  (this w);
        GlobalMTime := now; log := log w |}).

(** Modelled from the spec: [vtkAbstractMapper::GetScalars] (not part of the
    file under study): the scalars are located on the input and the
    association flag is written through the last argument; a null input
    yields null and leaves the flag alone. *)
Definition GetScalars (input : option vtkImageData)
  : M (option vtkDataArray) :=
  match input with
  | None => ret None
  | Some img =>
      update (vtkInternal.set_CellFlag (ScalarsCellFlag img)) ;;
      ret (Scalars img)
  end.

(** ** The methods of vtkInternal that have effects *)

Definition uniforms : list string :=
  ["scene_matrix"; "modelview_matrix"; "projection_matrix"; "volume";
   "camera_pos"; "light_pos"; "step_size"; "sample_distance"; "scale";
   "cell_scale"; "color_transfer_func"; "opacity_transfer_func"; "noise";
   "vol_extents_min"; "vol_extents_max"; "texture_extents_min";
   "texture_extents_max"; "texture_coord_offset"; "enable_shading";
   "ambient"; "diffuse"; "specular"; "shininess"].

(** *** Initialize *)
Definition Initialize (p : Platform) : M unit :=
  emit (gl "glewInit()") ;;
  (if glewInit_OK p
   then if GLEW_VERSION_3_3 p
        then emit (std_cout "Driver supports OpenGL 3.3")
        else ret tt
   else emit (std_cerr "Error: glewGetErrorString(err)")) ;;
  emit (gl "glGetError()") ;;
  GL_CHECK_ERRORS p Check_Initialize ;;
  emits [std_cout "Using GLEW"; std_cout "Vendor"; std_cout "Renderer";
         std_cout "Version"; std_cout "GLSL"] ;;
  emits [Shader "LoadFromString" "GL_VERTEX_SHADER";
         Shader "LoadFromString" "GL_FRAGMENT_SHADER";
         Shader "CreateAndLinkProgram" ""; Shader "Use" "";
         Shader "AddAttribute" "in_vertex_pos"] ;;
  emits (map (Shader "AddUniform") uniforms) ;;
  emits [gl "glGenVertexArrays(1, CubeVAOId)"; gl "glGenBuffers(1, CubeVBOId)";
         gl "glGenBuffers(1, CubeIndicesId)"] ;;
  update (vtkInternal.set_tables true true) ;;
  emit (Shader "UnUse" "") ;;
  update (vtkInternal.set_Initialized true).

(** *** LoadVolume *)

(** The five locals the encoder of [LoadVolume] decides. *)
Record encoding := {
  internalFormat : GLenum;
  format : GLenum;
  type : GLenum;
  shift : Q;
  scale : Q
}.

Definition unsupported_message : string :=
  "Scalar type VTK_UNSIGNED_LONG_LONG not supported".

(** The [if]/[switch] of [LoadVolume] over the component count and the
    scalar type.  The locals start as [0, 0, 0, 0.0, 1.0]; a branch that
    assigns nothing leaves them so. *)
Definition encode (p : Platform) (scalars : vtkDataArray)
    (ScalarsRange : list Q) : M encoding :=
  let r0 := ScalarsRange !!! 0%nat in
  let r1 := ScalarsRange !!! 1%nat in
  let untouched := {| internalFormat := GL_NONE; format := GL_NONE;
                      type := GL_NONE; shift := 0; scale := 1 |} in
  let scalarType := DataType scalars in
  if NumberOfComponents scalars =? 4
  then ret {| internalFormat := GL_RGBA16; format := GL_RGBA;
              type := GL_UNSIGNED_BYTE; shift := 0; scale := 1 |}
  else
    match scalarType with
    | VTK_FLOAT =>
        ret {| internalFormat := if GL_ARB_texture_float p
                                 then INTENSITY16F_ARB else GL_INTENSITY16;
               format := GL_RED; type := GL_FLOAT;
               shift := (- r0)%Q;
               scale := (1 / (r1 - r0))%Q |}
    | VTK_UNSIGNED_CHAR =>
        ret {| internalFormat := GL_INTENSITY8; format := GL_RED;
               type := GL_UNSIGNED_BYTE;
               shift := (- r0 / inject_Z VTK_UNSIGNED_CHAR_MAX)%Q;
               scale := (inject_Z VTK_UNSIGNED_CHAR_MAX / (r1 - r0))%Q |}
    | VTK_SIGNED_CHAR =>
        ret {| internalFormat := GL_INTENSITY8; format := GL_RED;
               type := GL_BYTE;
               shift := (- (2 * r0 + 1) / inject_Z VTK_UNSIGNED_CHAR_MAX)%Q;
               scale := (inject_Z VTK_SIGNED_CHAR_MAX / (r1 - r0))%Q |}
    | VTK_CHAR => assert p false ;; ret untouched
    | VTK_BIT => assert p false ;; ret untouched
    | VTK_ID_TYPE => assert p false ;; ret untouched
    | VTK_INT =>
        ret {| internalFormat := GL_INTENSITY16; format := GL_RED;
               type := GL_INT;
               shift := (- (2 * r0 + 1) / inject_Z VTK_UNSIGNED_INT_MAX)%Q;
               scale := (inject_Z VTK_INT_MAX / (r1 - r0))%Q |}
    | VTK_DOUBLE | VTK___INT64 | VTK_LONG | VTK_LONG_LONG
    | VTK_UNSIGNED___INT64 | VTK_UNSIGNED_LONG | VTK_UNSIGNED_LONG_LONG =>
        emit (std_cerr unsupported_message) ;; ret untouched
    | VTK_SHORT =>
        ret {| internalFormat := GL_INTENSITY16; format := GL_RED;
               type := GL_SHORT;
               shift := (- (2 * r0 + 1) / inject_Z VTK_UNSIGNED_SHORT_MAX)%Q;
               scale := (inject_Z VTK_SHORT_MAX / (r1 - r0))%Q |}
    | VTK_STRING => assert p false ;; ret untouched
    | VTK_UNSIGNED_SHORT =>
        ret {| internalFormat := GL_INTENSITY16; format := GL_RED;
               type := GL_UNSIGNED_SHORT;
               shift := (- r0 / inject_Z VTK_UNSIGNED_SHORT_MAX)%Q;
               scale := (inject_Z VTK_UNSIGNED_SHORT_MAX / (r1 - r0))%Q |}
    | VTK_UNSIGNED_INT =>
        ret {| internalFormat := GL_INTENSITY16; format := GL_RED;
               type := GL_UNSIGNED_INT;
               shift := (- r0 / inject_Z VTK_UNSIGNED_INT_MAX)%Q;
               scale := (inject_Z VTK_UNSIGNED_INT_MAX / (r1 - r0))%Q |}
    | _ => assert p false ;; ret untouched
    end.

(** [TextureSize[i] = Extents[2*i+1] - Extents[2*i] + 1] for [i = 0, 1, 2] *)
Definition texture_sizes (Extents : list Z) (TextureSize : list Z) : list Z :=
  foldl (fun ts i =>
           <[i := int_wrap (Extents !!! (2 * i + 1)%nat
                            - Extents !!! (2 * i)%nat + 1)]> ts)
        TextureSize [0%nat; 1%nat; 2%nat].

(** Generate the OpenGL texture and set its parameters. *)
Definition generate_volume_texture : list event :=
  [gl "glActiveTexture(GL_TEXTURE0)";
   gl "glGenTextures(1, VolumeTextureId)";
   gl "glBindTexture(GL_TEXTURE_3D, VolumeTextureId)";
   gl "glTexParameteri(GL_TEXTURE_3D, GL_TEXTURE_WRAP_S, GL_CLAMP)";
   gl "glTexParameteri(GL_TEXTURE_3D, GL_TEXTURE_WRAP_T, GL_CLAMP)";
   gl "glTexParameteri(GL_TEXTURE_3D, GL_TEXTURE_WRAP_R, GL_CLAMP)";
   gl "glTexParameteri(GL_TEXTURE_3D, GL_TEXTURE_MAG_FILTER, GL_LINEAR)";
   gl "glTexParameteri(GL_TEXTURE_3D, GL_TEXTURE_MIN_FILTER, GL_LINEAR)"].

Definition LoadVolume (p : Platform) (imageData : vtkImageData)
    (scalars : vtkDataArray) : M bool :=
  emits generate_volume_texture ;;
  GL_CHECK_ERRORS p Check_LoadVolume_parameters ;;
  s <- impl ;;
  enc <- encode p scalars (vtkInternal.ScalarsRange s) ;;
  update (vtkInternal.set_Scale (scale enc)) ;;
  update (vtkInternal.set_Extents (Extent imageData)) ;;
  update (fun s => vtkInternal.set_TextureSize
                     (texture_sizes (vtkInternal.Extents s)
                                    (vtkInternal.TextureSize s)) s) ;;
  s <- impl ;;
  emit (glTexImage3D (internalFormat enc)
                     (vtkInternal.TextureSize s !!! 0%nat)
                     (vtkInternal.TextureSize s !!! 1%nat)
                     (vtkInternal.TextureSize s !!! 2%nat)
                     (format enc) (type enc)) ;;
  GL_CHECK_ERRORS p Check_LoadVolume_upload ;;
  VolumeBuildTime_Modified ;;
  ret true.

(** *** UpdateColorTransferFunction and UpdateOpacityTransferFunction *)

Definition multi_component_message : string :=
  "SinglePass volume mapper does not handle multi-component scalars".

Definition set_RGBTransferFunction (f : vtkColorTransferFunction)
    (v : vtkVolume) : vtkVolume :=
  let pr := Property v in
  {| Property :=
       {| RGBTransferFunction := f; ScalarOpacity := ScalarOpacity pr;
          IndependentComponents := IndependentComponents pr;
          LinearInterpolation := LinearInterpolation pr;
          ScalarOpacityUnitDistance := ScalarOpacityUnitDistance pr;
          Shade := Shade pr |};
     Matrix := Matrix v |}.

Definition set_ScalarOpacity (f : vtkPiecewiseFunction)
    (v : vtkVolume) : vtkVolume :=
  let pr := Property v in
  {| Property :=
       {| RGBTransferFunction := RGBTransferFunction pr; ScalarOpacity := f;
          IndependentComponents := IndependentComponents pr;
          LinearInterpolation := LinearInterpolation pr;
          ScalarOpacityUnitDistance := ScalarOpacityUnitDistance pr;
          Shade := Shade pr |};
     Matrix := Matrix v |}.

(** [this->RGBTable->...] and [this->OpacityTables->...] *)
Definition deref_table (points_to_table : bool) : M unit :=
  if points_to_table then ret tt else abort NullDereference.

(** Returns the status and the volume as the call leaves it. *)
Definition UpdateColorTransferFunction (vol : option vtkVolume)
    (numberOfScalarComponents : Z) : M (Z * option vtkVolume) :=
  if numberOfScalarComponents =? 1
  then
    v <- deref vol ;;
    let volumeProperty := Property v in
    let colorTransferFunction := RGBTransferFunction volumeProperty in
    s <- impl ;;
    let colorTransferFunction :=
      if GetSize colorTransferFunction <? 1
      then AddRGBPoint (vtkInternal.ScalarsRange s !!! 1%nat) 1 1 1
             (AddRGBPoint (vtkInternal.ScalarsRange s !!! 0%nat) 0 0 0
                          colorTransferFunction)
      else colorTransferFunction in
    deref_table (vtkInternal.RGBTable s) ;;
    emit (RGBTable_Update colorTransferFunction (vtkInternal.ScalarsRange s)
                          (LinearInterpolation volumeProperty)) ;;
    emit (gl "glActiveTexture(GL_TEXTURE0)") ;;
    ret (0, Some (set_RGBTransferFunction colorTransferFunction v))
  else
    emit (std_cerr multi_component_message) ;;
    ret (1, vol).

Definition UpdateOpacityTransferFunction (vol : option vtkVolume)
    (numberOfScalarComponents : Z) (level : Z) : M (Z * option vtkVolume) :=
  match vol with
  | None => emit (std_cerr "Invalid volume") ;; ret (1, vol)
  | Some v =>
      if negb (numberOfScalarComponents =? 1)
      then emit (std_cerr multi_component_message) ;; ret (1, vol)
      else
        let volumeProperty := Property v in
        let scalarOpacity := ScalarOpacity volumeProperty in
        s <- impl ;;
        m <- get_this ;;
        let scalarOpacity :=
          if GetSize scalarOpacity <? 1
          then AddPoint (vtkInternal.ScalarsRange s !!! 1%nat) (1 # 2)
                 (AddPoint (vtkInternal.ScalarsRange s !!! 0%nat) 0
                           scalarOpacity)
          else scalarOpacity in
        deref_table (vtkInternal.OpacityTables s) ;;
        emit (OpacityTable_Update level scalarOpacity
                (vtkInternal.BlendMode s) (SampleDistance m)
                (vtkInternal.ScalarsRange s)
                (ScalarOpacityUnitDistance volumeProperty)
                (LinearInterpolation volumeProperty)) ;;
        emit (gl "glActiveTexture(GL_TEXTURE0)") ;;
        ret (0, Some (set_ScalarOpacity scalarOpacity v))
  end.

(** *** UpdateNoiseTexture *)

(** The two nested loops that fill [NoiseTextureData], over a fresh array of
    [size * size] floats (shown as 0 until written; every cell is written
    when [size] is not negative). *)
Definition noise_grid (p : Platform) (size : Z) (amplitude : Q) : list Q :=
  let n := Z.to_nat size in
  foldl (fun data j =>
           foldl (fun data i =>
                    <[(j * n + i)%nat :=
                        (amplitude + PerlinNoise p size amplitude
                                       (Z.of_nat i) (Z.of_nat j))%Q]> data)
                 data (seq 0 n))
        (replicate (Z.to_nat (size * size)) 0%Q) (seq 0 n).

Definition UpdateNoiseTexture (p : Platform) : M unit :=
  s <- impl ;;
  match vtkInternal.NoiseTextureData s with
  | Some _ => ret tt
  | None =>
      emits [gl "glActiveTexture(GL_TEXTURE3)";
             gl "glGenTextures(1, NoiseTextureId)";
             gl "glBindTexture(GL_TEXTURE_2D, NoiseTextureId)"] ;;
      let size := 128 in
      let factor := (1 # 10)%Q in
      let amplitude := ((1 # 2) * factor)%Q in
      emit (gl "glGetIntegerv(GL_MAX_TEXTURE_SIZE)") ;;
      let maxSize := GL_MAX_TEXTURE_SIZE p in
      let size := if maxSize <? size then maxSize else size in
      s <- impl ;;
      (match vtkInternal.NoiseTextureData s with
       | Some _ =>
           if negb (vtkInternal.NoiseTextureSize s =? size)
           then update (fun s => vtkInternal.set_NoiseTexture
                                   None (vtkInternal.NoiseTextureSize s) s)
           else ret tt
       | None => ret tt
       end) ;;
      s <- impl ;;
      (match vtkInternal.NoiseTextureData s with
       | None =>
           update (vtkInternal.set_NoiseTexture
                     (Some (noise_grid p size amplitude)) size)
       | Some _ => ret tt
       end) ;;
      s <- impl ;;
      emit (glTexImage2D size (vtkInternal.NoiseTextureData s)) ;;
      emits [gl "glTexParameterf(GL_TEXTURE_2D, GL_TEXTURE_WRAP_S, GL_REPEAT)";
             gl "glTexParameterf(GL_TEXTURE_2D, GL_TEXTURE_WRAP_T, GL_REPEAT)";
             gl "glTexParameteri(GL_TEXTURE_2D, GL_TEXTURE_MIN_FILTER, GL_NEAREST)";
             gl "glTexParameteri(GL_TEXTURE_2D, GL_TEXTURE_MAG_FILTER, GL_NEAREST)";
             gl "glActiveTexture(GL_TEXTURE0)"]
  end.

(** *** UpdateVolumeGeometry *)

Definition cubeIndices : list Z :=
  [0; 5; 4;  5; 0; 1;  3; 7; 6;  3; 6; 2;  7; 4; 6;  6; 4; 5;
   2; 1; 3;  3; 1; 0;  3; 0; 7;  7; 0; 4;  6; 5; 2;  2; 5; 1].

Definition cube_vertices (B : list Q) : list (list Q) :=
  [[B !!! 0%nat; B !!! 2%nat; B !!! 4%nat];
   [B !!! 1%nat; B !!! 2%nat; B !!! 4%nat];
   [B !!! 1%nat; B !!! 3%nat; B !!! 4%nat];
   [B !!! 0%nat; B !!! 3%nat; B !!! 4%nat];
   [B !!! 0%nat; B !!! 2%nat; B !!! 5%nat];
   [B !!! 1%nat; B !!! 2%nat; B !!! 5%nat];
   [B !!! 1%nat; B !!! 3%nat; B !!! 5%nat];
   [B !!! 0%nat; B !!! 3%nat; B !!! 5%nat]].

Definition UpdateVolumeGeometry (p : Platform) : M unit :=
  s <- impl ;;
  let vertices := cube_vertices (vtkInternal.Bounds s) in
  emits [gl "glBindVertexArray(CubeVAOId)";
         gl "glBindBuffer(GL_ARRAY_BUFFER, CubeVBOId)";
         glBufferData_vertices vertices] ;;
  GL_CHECK_ERRORS p Check_Geometry_vertices ;;
  emits [gl "glEnableVertexAttribArray(in_vertex_pos)";
         gl "glVertexAttribPointer(in_vertex_pos, 3, GL_DOUBLE, GL_FALSE, 0, 0)";
         gl "glBindBuffer(GL_ELEMENT_ARRAY_BUFFER, CubeIndicesId)";
         glBufferData_indices cubeIndices] ;;
  GL_CHECK_ERRORS p Check_Geometry_indices ;;
  emit (gl "glBindVertexArray(0)").

(** ** The public methods of the mapper *)

(** [goodSoFar && ...] on the [int] flag *)
Definition good (goodSoFar : Z) : bool := negb (goodSoFar =? 0).

Definition is_null {A} (ptr : option A) : bool :=
  match ptr with None => true | Some _ => false end.

(** *** ValidateRender *)

(** The [switch] over the scalar type: the message of the case, if the case
    rejects the type. *)
Definition unsupported_scalar_type (ty : vtkScalarType) : option string :=
  match ty with
  | VTK_CHAR =>
      Some "scalar of type VTK_CHAR is not supported because this type is platform dependent. Use VTK_SIGNED_CHAR or VTK_UNSIGNED_CHAR instead."
  | VTK_BIT =>
      Some "scalar of type VTK_BIT is not supported by this mapper."
  | VTK_ID_TYPE =>
      Some "scalar of type VTK_ID_TYPE is not supported by this mapper."
  | VTK_STRING =>
      Some "scalar of type VTK_STRING is not supported by this mapper."
  | _ => None
  end.

(** [BlendMode != COMPOSITE_BLEND && != MAXIMUM_INTENSITY_BLEND &&
     != MINIMUM_INTENSITY_BLEND && != ADDITIVE_BLEND] *)
Definition unsupported_blend (b : vtkBlendMode) : bool :=
  negb (bool_decide (b = COMPOSITE_BLEND)) &&
  negb (bool_decide (b = MAXIMUM_INTENSITY_BLEND)) &&
  negb (bool_decide (b = MINIMUM_INTENSITY_BLEND)) &&
  negb (bool_decide (b = ADDITIVE_BLEND)).

Definition no_renderer : string := "Renderer cannot be null.".
Definition no_volume : string := "Volume cannot be null.".
Definition no_input : string := "Input is NULL but is required".
Definition no_scalars : string := "No scalars found on input.".
Definition field_scalars_found : string :=
  "Only point or cell scalar support - found field scalars instead.".
Definition blend_not_supported : string :=
  "Selected blend mode not supported. Only Composite, MIP, MinIP and additive modes are supported by the current implementation.".
Definition components_not_supported : string :=
  "Only one component scalars, or four component with non-independent components, are supported by this mapper.".
Definition four_components_not_unsigned_char : string :=
  "Only unsigned char is supported for 4-component scalars!".
Definition additive_needs_one_component : string :=
  "Additive mode only works with 1-component scalars!".

Definition ValidateRender (ren : option vtkRenderer) (vol : option vtkVolume)
  : M Z :=
  let goodSoFar := 1 in
  (* Check for a renderer *)
  goodSoFar <-
    (if is_null ren
     then emit (vtkErrorMacro no_renderer) ;; ret 0
     else ret goodSoFar) ;;
  (* Check for the volume *)
  goodSoFar <-
    (if good goodSoFar && is_null vol
     then emit (vtkErrorMacro no_volume) ;; ret 0
     else ret goodSoFar) ;;
  (* Check that we have input data *)
  m <- get_this ;;
  let input := Input m in
  goodSoFar <-
    (if good goodSoFar && is_null input
     then emit (vtkErrorMacro no_input) ;; ret 0
     else ret goodSoFar) ;;
  (if good goodSoFar then emit InputAlgorithm_Update else ret tt) ;;
  (* Make sure we can find point or cell scalars *)
  found <-
    (if good goodSoFar
     then
       scalars <- GetScalars input ;;
       s <- impl ;;
       if is_null scalars
       then emit (vtkErrorMacro no_scalars) ;; ret (0, scalars)
       else if vtkInternal.CellFlag s =? 2
       then emit (vtkErrorMacro field_scalars_found) ;; ret (0, scalars)
       else ret (goodSoFar, scalars)
     else ret (goodSoFar, None)) ;;
  let goodSoFar := fst found in
  let scalars : option vtkDataArray := snd found in
  (* Make sure the scalar type is actually supported *)
  goodSoFar <-
    (if good goodSoFar
     then
       a <- deref scalars ;;
       match unsupported_scalar_type (DataType a) with
       | Some message => emit (vtkErrorMacro message) ;; ret 0
       | None => ret goodSoFar
       end
     else ret goodSoFar) ;;
  (* Check on the blending type *)
  goodSoFar <-
    (if good goodSoFar
     then
       if unsupported_blend (BlendMode m)
       then emit (vtkErrorMacro blend_not_supported) ;; ret 0
       else ret goodSoFar
     else ret goodSoFar) ;;
  (* 1 component data, or 4 component if it is not independent component *)
  counted <-
    (if good goodSoFar
     then
       a <- deref scalars ;;
       let numberOfComponents := NumberOfComponents a in
       supported <-
         (if numberOfComponents =? 1 then ret true
          else if numberOfComponents =? 4
          then v <- deref vol ;;
               ret (IndependentComponents (Property v) =? 0)
          else ret false) ;;
       if negb supported
       then emit (vtkErrorMacro components_not_supported) ;;
            ret (0, numberOfComponents)
       else ret (goodSoFar, numberOfComponents)
     else ret (goodSoFar, 0)) ;;
  let goodSoFar := fst counted in
  let numberOfComponents : Z := snd counted in
  (* Four component data had better be unsigned char *)
  goodSoFar <-
    (if good goodSoFar && (numberOfComponents =? 4)
     then
       a <- deref scalars ;;
       if negb (bool_decide (DataType a = VTK_UNSIGNED_CHAR))
       then emit (vtkErrorMacro four_components_not_unsigned_char) ;; ret 0
       else ret goodSoFar
     else ret goodSoFar) ;;
  goodSoFar <-
    (if good goodSoFar && negb (numberOfComponents =? 1)
                       && bool_decide (BlendMode m = ADDITIVE_BLEND)
     then emit (vtkErrorMacro additive_needs_one_component) ;; ret 0
     else ret goodSoFar) ;;
  ret goodSoFar.

(** *** GPURender *)

(** Undo binds and state changes. *)
Definition restore_state : list event :=
  [Shader "UnUse" ""; gl "glBindVertexArray(0)"; gl "glDisable(GL_BLEND)";
   gl "glActiveTexture(GL_TEXTURE0)"; gl "glDisable(GL_TEXTURE_3D)";
   gl "glDisable(GL_TEXTURE_2D)"; gl "glDisable(GL_TEXTURE_1D)"].

(** Returns the volume as the call leaves it. *)
Definition GPURender (p : Platform) (ren : option vtkRenderer)
    (vol : option vtkVolume) : M (option vtkVolume) :=
  r <- deref ren ;;
  emit RenderWindow_MakeCurrent ;;
  _ <- deref vol ;;
  emit Volume_Update ;;
  m <- get_this ;;
  let input := Input m in
  emits [gl "glEnable(GL_TEXTURE_1D)"; gl "glEnable(GL_TEXTURE_2D)";
         gl "glEnable(GL_TEXTURE_3D)"] ;;
  s <- impl ;;
  (if negb (vtkInternal.IsInitialized s) then Initialize p else ret tt) ;;
  scalars <- GetScalars input ;;
  a <- deref scalars ;;
  update (vtkInternal.set_ScalarsRange [fst (Range a); snd (Range a)]) ;;
  (* Load volume data if needed *)
  img <- deref input ;;
  s <- impl ;;
  (if vtkInternal.IsDataDirty img s
   then
     update (vtkInternal.ComputeBounds img) ;;
     _ <- LoadVolume p img a ;;
     UpdateVolumeGeometry p
   else ret tt) ;;
  emit (Shader "Use" "") ;;
  (* the two statuses are not looked at *)
  o <- UpdateOpacityTransferFunction vol (NumberOfComponents a) 0 ;;
  let vol := snd o in
  c <- UpdateColorTransferFunction vol (NumberOfComponents a) ;;
  let vol := snd c in
  UpdateNoiseTexture p ;;
  GL_CHECK_ERRORS p Check_GPURender_resources ;;
  emits [gl "glEnable(GL_DEPTH_TEST)";
         gl "glBlendFunc(GL_SRC_ALPHA, GL_ONE_MINUS_SRC_ALPHA)";
         gl "glEnable(GL_BLEND)"] ;;
  GL_CHECK_ERRORS p Check_GPURender_blending ;;
  (* Update sampling distance: [this->Bounds] is the mapper's own array *)
  m <- get_this ;;
  let B := Bounds m in
  update (fun s => vtkInternal.set_StepSize
    (<[2%nat := (1 / (B !!! 5%nat - B !!! 4%nat))%Q]>
       (<[1%nat := (1 / (B !!! 3%nat - B !!! 2%nat))%Q]>
          (<[0%nat := (1 / (B !!! 1%nat - B !!! 0%nat))%Q]>
             (vtkInternal.StepSize s)))) s) ;;
  update (fun s => vtkInternal.set_CellScale
    (<[2%nat := ((B !!! 5%nat - B !!! 4%nat) * (1 # 2))%Q]>
       (<[1%nat := ((B !!! 3%nat - B !!! 2%nat) * (1 # 2))%Q]>
          (<[0%nat := ((B !!! 1%nat - B !!! 0%nat) * (1 # 2))%Q]>
             (vtkInternal.CellScale s)))) s) ;;
  s <- impl ;;
  v <- deref vol ;;
  emits [glUniform3f "step_size" (vtkInternal.StepSize s !!! 0%nat)
                     (vtkInternal.StepSize s !!! 1%nat)
                     (vtkInternal.StepSize s !!! 2%nat);
         glUniform1f "sample_distance" (SampleDistance m);
         glUniform3f "cell_scale" (vtkInternal.CellScale s !!! 0%nat)
                     (vtkInternal.CellScale s !!! 1%nat)
                     (vtkInternal.CellScale s !!! 2%nat);
         glUniform1f "scale" (vtkInternal.Scale s);
         glUniform1i "volume" 0;
         glUniform1i "color_transfer_func" 1;
         glUniform1i "opacity_transfer_func" 2;
         glUniform1i "noise" 3;
         glUniform1i "enable_shading" (Shade (Property v));
         glUniform3f "ambient" 0 0 0;
         glUniform3f "diffuse" (2 # 10) (2 # 10) (2 # 10);
         glUniform3f "specular" (2 # 10) (2 # 10) (2 # 10);
         glUniform1f "shininess" 10] ;;
  (* Bind textures *)
  emits [gl "glActiveTexture(GL_TEXTURE0)";
         gl "glBindTexture(GL_TEXTURE_3D, VolumeTextureId)"] ;;
  deref_table (vtkInternal.RGBTable s) ;;
  emit RGBTable_Bind ;;
  deref_table (vtkInternal.OpacityTables s) ;;
  emit (OpacityTable_Bind 0) ;;
  emits [gl "glActiveTexture(GL_TEXTURE3)";
         gl "glBindTexture(GL_TEXTURE_2D, NoiseTextureId)"] ;;
  let aspect := Aspect r in
  emits [glUniformMatrix4fv "projection_matrix"
           (ProjectionTransformMatrix r (fst aspect / snd aspect)%Q);
         glUniformMatrix4fv "modelview_matrix" (ViewTransformMatrix r);
         glUniformMatrix4fv "scene_matrix" (Matrix v)] ;;
  let pos := [CameraPosition r !!! 0%nat; CameraPosition r !!! 1%nat;
              CameraPosition r !!! 2%nat] in
  emits [glUniform3fv "camera_pos" pos; glUniform3fv "light_pos" pos] ;;
  emits [glUniform3fv "vol_extents_min" [B !!! 0%nat; B !!! 2%nat; B !!! 4%nat];
         glUniform3fv "vol_extents_max" [B !!! 1%nat; B !!! 3%nat; B !!! 5%nat]] ;;
  emits [glUniform3fv "texture_extents_min"
           [inject_Z (vtkInternal.Extents s !!! 0%nat);
            inject_Z (vtkInternal.Extents s !!! 2%nat);
            inject_Z (vtkInternal.Extents s !!! 4%nat)];
         glUniform3fv "texture_extents_max"
           [inject_Z (vtkInternal.Extents s !!! 1%nat);
            inject_Z (vtkInternal.Extents s !!! 3%nat);
            inject_Z (vtkInternal.Extents s !!! 5%nat)]] ;;
  emits [gl "glBindVertexArray(CubeVAOId)"; glDrawElements 36] ;;
  (* Undo binds and state changes *)
  emits restore_state ;;
  ret vol.

(** *** Render *)

(** The timer of the source measures wall-clock time and is left out. *)
Definition Render (p : Platform) (ren : option vtkRenderer)
    (vol : option vtkVolume) : M (option vtkVolume) :=
  emit (InvokeEvent "VolumeMapperRenderStartEvent") ;;
  ok <- ValidateRender ren vol ;;
  vol <- (if good ok then GPURender p ren vol else ret vol) ;;
  emit (InvokeEvent "VolumeMapperRenderEndEvent") ;;
  ret vol.

(** ** Vocabulary of the properties *)

(** The data-model invariant of a volume: each axis of the extent is
    well ordered. *)
Definition extent_ordered (input : vtkImageData) : Prop :=
  forall i : nat, (i < 3)%nat ->
    Extent input !!! (2 * i)%nat <= Extent input !!! (2 * i + 1)%nat.

(** The edge of the extent that point semantics selects for the lower
    (upper) bound of axis [i]. *)
Definition lower_edge (input : vtkImageData) (i : nat) : Z :=
  Extent input !!! (2 * i + vtkInternal.swapBound (Spacing input !!! i))%nat.

Definition upper_edge (input : vtkImageData) (i : nat) : Z :=
  Extent input !!! (2 * i + 1 - vtkInternal.swapBound (Spacing input !!! i))%nat.

(** ** Sample inputs *)

Definition sample_platform : Platform :=
  {| NDEBUG := false; glewInit_OK := true; GLEW_VERSION_3_3 := true;
     GL_ARB_texture_float := true; GL_MAX_TEXTURE_SIZE := 2;
     GL_NO_ERROR_at := fun _ => true;
     PerlinNoise := fun _ _ i j => inject_Z (i + j) |}.

Definition float_scalars : vtkDataArray :=
  {| DataType := VTK_FLOAT; NumberOfComponents := 1; Range := (0%Q, 1%Q) |}.

(** The dataset of the end-to-end scenario: extent [0,9]^3, unit spacing. *)
Definition sample_image : vtkImageData :=
  {| Extent := [0; 9; 0; 9; 0; 9]; Spacing := [1%Q; 1%Q; 1%Q];
     Origin := [0%Q; 0%Q; 0%Q]; MTime := 5%N;
     Scalars := Some float_scalars; ScalarsCellFlag := 0 |}.

(** The same grid stored backwards along the second axis. *)
Definition flipped_image : vtkImageData :=
  {| Extent := [0; 9; 2; 5; 0; 9]; Spacing := [1%Q; (-1 # 2)%Q; 2%Q];
     Origin := [0%Q; 3%Q; 0%Q]; MTime := 5%N;
     Scalars := Some float_scalars; ScalarsCellFlag := 0 |}.

Definition sample_memory : vtkInternal.t :=
  {| vtkInternal.Initialized := false; vtkInternal.CellFlag := 0;
     vtkInternal.TextureSize := [0; 0; 0];
     vtkInternal.BlendMode := COMPOSITE_BLEND;
     vtkInternal.ScalarsRange := [0%Q; 0%Q];
     vtkInternal.Bounds := [0%Q; 0%Q; 0%Q; 0%Q; 0%Q; 0%Q];
     vtkInternal.Extents := [0; 0; 0; 0; 0; 0];
     vtkInternal.StepSize := [0%Q; 0%Q; 0%Q];
     vtkInternal.CellScale := [0%Q; 0%Q; 0%Q]; vtkInternal.Scale := 0%Q;
     vtkInternal.NoiseTextureData := None; vtkInternal.NoiseTextureSize := 0;
     vtkInternal.RGBTable := false; vtkInternal.OpacityTables := false;
     vtkInternal.VolumeBuildTime := 0%N |}.

Definition fresh_internal : vtkInternal.t := vtkInternal.create sample_memory.

(** Cell scalars on the sample dataset, and a block of cell data whose
    extent starts at index 2. *)
Definition cell_internal : vtkInternal.t :=
  vtkInternal.set_CellFlag 1 fresh_internal.

Definition offset_image : vtkImageData :=
  {| Extent := [2; 5; 2; 5; 2; 5]; Spacing := [1%Q; 1%Q; 1%Q];
     Origin := [0%Q; 0%Q; 0%Q]; MTime := 5%N;
     Scalars := Some float_scalars; ScalarsCellFlag := 1 |}.

(** The scalar types the encoder has a texture format for. *)
Definition supported_type (ty : vtkScalarType) : bool :=
  match ty with
  | VTK_FLOAT | VTK_UNSIGNED_CHAR | VTK_SIGNED_CHAR | VTK_SHORT
  | VTK_UNSIGNED_SHORT | VTK_INT | VTK_UNSIGNED_INT => true
  | _ => false
  end.

(** What the device makes of a raw sample of the given transfer type when
    it fills a normalised texture (the fixed-point conversion of OpenGL):
    an unsigned [b]-bit integer [c] becomes [c / (2^b - 1)], a signed one
    [(2c + 1) / (2^b - 1)], a float is taken as it is. *)
Definition gl_normalize (type : GLenum) (c : Q) : Q :=
  match type with
  | GL_UNSIGNED_BYTE => c / 255
  | GL_BYTE => (2 * c + 1) / 255
  | GL_UNSIGNED_SHORT => c / 65535
  | GL_SHORT => (2 * c + 1) / 65535
  | GL_UNSIGNED_INT => c / 4294967295
  | GL_INT => (2 * c + 1) / 4294967295
  | _ => c
  end%Q.

(** [encoded = (normalized_raw + shift) * scale] *)
Definition encoded (enc : encoding) (raw : Q) : Q :=
  ((gl_normalize (type enc) raw + shift enc) * scale enc)%Q.

(** Where the affine map sends [range_max]: the full span for floats and
    unsigned integers, one step of the unsigned grid short of it for signed
    integers (whose scale is the signed maximum). *)
Definition encoded_top (type : GLenum) : Q :=
  match type with
  | GL_BYTE => 254 / 255
  | GL_SHORT => 65534 / 65535
  | GL_INT => 4294967294 / 4294967295
  | _ => 1
  end%Q.

Definition short_scalars : vtkDataArray :=
  {| DataType := VTK_SHORT; NumberOfComponents := 1;
     Range := ((-1000)%Q, 3000%Q) |}.

Definition sample_mapper : vtkSinglePassVolumeMapper :=
  create [1%Q; (-1)%Q; 1%Q; (-1)%Q; 1%Q; (-1)%Q] COMPOSITE_BLEND
         (Some sample_image) sample_memory.

Definition sample_world : World :=
  {| this := sample_mapper; GlobalMTime := 5%N; log := [] |}.

(** The world with more events in its log. *)
Definition add_log (es : list event) (w : World) : World :=
  {| this := this w; GlobalMTime := GlobalMTime w; log := log w ++ es |}.

(** The scalar types that fall into one of the [assert] branches of the
    encoder when the data does not have four components. *)
Definition impossible_case (a : vtkDataArray) : bool :=
  negb (NumberOfComponents a =? 4) &&
  match DataType a with
  | VTK_FLOAT | VTK_UNSIGNED_CHAR | VTK_SIGNED_CHAR | VTK_SHORT
  | VTK_UNSIGNED_SHORT | VTK_INT | VTK_UNSIGNED_INT
  | VTK_DOUBLE | VTK___INT64 | VTK_LONG | VTK_LONG_LONG
  | VTK_UNSIGNED___INT64 | VTK_UNSIGNED_LONG | VTK_UNSIGNED_LONG_LONG => false
  | _ => true
  end.

(** The scalar types of the branch that only prints a message and selects
    no texture format. *)
Definition no_texture_format (a : vtkDataArray) : bool :=
  negb (NumberOfComponents a =? 4) &&
  match DataType a with
  | VTK_DOUBLE | VTK___INT64 | VTK_LONG | VTK_LONG_LONG
  | VTK_UNSIGNED___INT64 | VTK_UNSIGNED_LONG | VTK_UNSIGNED_LONG_LONG => true
  | _ => false
  end.

(** No assertion of [LoadVolume] stops the process: they are compiled out,
    or the device reports no error at the two checks and the scalar type is
    not an impossible case. *)
Definition LoadVolume_completes (p : Platform) (a : vtkDataArray) : bool :=
  NDEBUG p ||
  (GL_NO_ERROR_at p Check_LoadVolume_parameters && negb (impossible_case a)
   && GL_NO_ERROR_at p Check_LoadVolume_upload).

Definition double_scalars : vtkDataArray :=
  {| DataType := VTK_DOUBLE; NumberOfComponents := 1; Range := (0%Q, 1%Q) |}.

Definition char_scalars : vtkDataArray :=
  {| DataType := VTK_CHAR; NumberOfComponents := 1; Range := (0%Q, 1%Q) |}.

(** A computation that ends in [return 1] never yields 0. *)
Definition never_false (c : M bool) : Prop :=
  forall w : World, fst (c w) <> Val false.

(** The side of the noise grid: 128, clamped to what the device allows. *)
Definition noise_size (p : Platform) : Z :=
  if GL_MAX_TEXTURE_SIZE p <? 128 then GL_MAX_TEXTURE_SIZE p else 128.

(** The events of one generation of the noise texture. *)
Definition noise_generation (p : Platform) : list event :=
  [gl "glActiveTexture(GL_TEXTURE3)";
   gl "glGenTextures(1, NoiseTextureId)";
   gl "glBindTexture(GL_TEXTURE_2D, NoiseTextureId)";
   gl "glGetIntegerv(GL_MAX_TEXTURE_SIZE)";
   glTexImage2D (noise_size p)
                (Some (noise_grid p (noise_size p) ((1 # 2) * (1 # 10))%Q));
   gl "glTexParameterf(GL_TEXTURE_2D, GL_TEXTURE_WRAP_S, GL_REPEAT)";
   gl "glTexParameterf(GL_TEXTURE_2D, GL_TEXTURE_WRAP_T, GL_REPEAT)";
   gl "glTexParameteri(GL_TEXTURE_2D, GL_TEXTURE_MIN_FILTER, GL_NEAREST)";
   gl "glTexParameteri(GL_TEXTURE_2D, GL_TEXTURE_MAG_FILTER, GL_NEAREST)";
   gl "glActiveTexture(GL_TEXTURE0)"].

(** A device with other limits and another noise function. *)
Definition other_platform : Platform :=
  {| NDEBUG := true; glewInit_OK := true; GLEW_VERSION_3_3 := false;
     GL_ARB_texture_float := false; GL_MAX_TEXTURE_SIZE := 64;
     GL_NO_ERROR_at := fun _ => false;
     PerlinNoise := fun _ _ _ _ => 0%Q |}.

(** The world after the noise grid has been generated for platform [p]. *)
Definition with_noise (p : Platform) (w : World) : World :=
  {| this := set_Implementation
               (vtkInternal.set_NoiseTexture
                  (Some (noise_grid p (noise_size p) ((1 # 2) * (1 # 10))%Q))
                  (noise_size p) (Implementation (this w)))
               (this w);
     GlobalMTime := GlobalMTime w;
     log := log w ++ noise_generation p |}.

(** A mapper whose lookup tables have been created by [Initialize]. *)
Definition ready_world : World :=
  {| this := set_Implementation
               (vtkInternal.set_ScalarsRange [0%Q; 1%Q]
                  (vtkInternal.set_Initialized true
                     (vtkInternal.set_tables true true fresh_internal)))
               sample_mapper;
     GlobalMTime := 5%N; log := [] |}.

Definition white_point : vtkColorNode :=
  {| node_x := 1 # 2; node_r := 1; node_g := 1; node_b := 1 |}.

Definition sample_property (colors : vtkColorTransferFunction)
    (opacity : vtkPiecewiseFunction) (independent : Z) : vtkVolumeProperty :=
  {| RGBTransferFunction := colors; ScalarOpacity := opacity;
     IndependentComponents := independent; LinearInterpolation := true;
     ScalarOpacityUnitDistance := 1; Shade := 1 |}.

(** A volume whose two transfer functions are still empty, and one whose
    functions hold a single control point each. *)
Definition empty_volume : vtkVolume :=
  {| Property := sample_property [] [] 1; Matrix := [] |}.

Definition one_point_volume : vtkVolume :=
  {| Property := sample_property [white_point] [((1 # 2)%Q, 1%Q)] 1;
     Matrix := [] |}.

(** The two default control points of each kind. *)
Definition default_colors (range : list Q) : vtkColorTransferFunction :=
  [ {| node_x := range !!! 0%nat; node_r := 0; node_g := 0; node_b := 0 |};
    {| node_x := range !!! 1%nat; node_r := 1; node_g := 1; node_b := 1 |} ].

Definition default_opacity (range : list Q) : vtkPiecewiseFunction :=
  [ (range !!! 0%nat, 0%Q); (range !!! 1%nat, (1 # 2)%Q) ].

(** *** The checks of ValidateRender, one after the other

    [first_failure] is the message of the first check that fails, in the
    order of the source; [reaches_input] tells whether the checks got as far
    as updating the input and looking for its scalars. *)
Definition first_failure (ren : option vtkRenderer) (vol : option vtkVolume)
    (m : vtkSinglePassVolumeMapper) : option string :=
  match ren, vol, Input m with
  | None, _, _ => Some no_renderer
  | Some _, None, _ => Some no_volume
  | Some _, Some _, None => Some no_input
  | Some _, Some v, Some img =>
      match Scalars img with
      | None => Some no_scalars
      | Some a =>
          let n := NumberOfComponents a in
          if ScalarsCellFlag img =? 2 then Some field_scalars_found
          else
            match unsupported_scalar_type (DataType a) with
            | Some message => Some message
            | None =>
                if unsupported_blend (BlendMode m)
                then Some blend_not_supported
                else if negb (if n =? 1 then true
                              else if n =? 4
                              then IndependentComponents (Property v) =? 0
                              else false)
                then Some components_not_supported
                else if (n =? 4)
                        && negb (bool_decide (DataType a = VTK_UNSIGNED_CHAR))
                then Some four_components_not_unsigned_char
                else if negb (n =? 1)
                        && bool_decide (BlendMode m = ADDITIVE_BLEND)
                then Some additive_needs_one_component
                else None
            end
      end
  end.

Definition reaches_input (ren : option vtkRenderer) (vol : option vtkVolume)
    (m : vtkSinglePassVolumeMapper) : option vtkImageData :=
  match ren, vol with
  | Some _, Some _ => Input m
  | _, _ => None
  end.

Definition validation_events (ren : option vtkRenderer)
    (vol : option vtkVolume) (m : vtkSinglePassVolumeMapper) : list event :=
  match reaches_input ren vol m with
  | Some _ => [InputAlgorithm_Update]
  | None => []
  end ++
  match first_failure ren vol m with
  | Some message => [vtkErrorMacro message]
  | None => []
  end.

(** The world [ValidateRender] leaves behind. *)
Definition validated (ren : option vtkRenderer) (vol : option vtkVolume)
    (w : World) : World :=
  {| this :=
       match reaches_input ren vol (this w) with
       | Some img =>
           set_Implementation
             (vtkInternal.set_CellFlag (ScalarsCellFlag img)
                                       (Implementation (this w)))
             (this w)
       | None => this w
       end;
     GlobalMTime := GlobalMTime w;
     log := log w ++ validation_events ren vol (this w) |}.

(** The conditions of rejection, on the scalars found on the input. *)
Definition scalars_of (m : vtkSinglePassVolumeMapper) (a : vtkDataArray)
  : Prop :=
  exists img, Input m = Some img /\ Scalars img = Some a.

Definition field_associated (m : vtkSinglePassVolumeMapper) : Prop :=
  exists img a, Input m = Some img /\ Scalars img = Some a /\
                ScalarsCellFlag img = 2.

Definition component_count_unsupported (vol : option vtkVolume)
    (m : vtkSinglePassVolumeMapper) : Prop :=
  exists a, scalars_of m a /\
    NumberOfComponents a <> 1 /\
    ~ (NumberOfComponents a = 4 /\
       exists v, vol = Some v /\ IndependentComponents (Property v) = 0).

Definition four_components_of_other_type (m : vtkSinglePassVolumeMapper)
  : Prop :=
  exists a, scalars_of m a /\
    NumberOfComponents a = 4 /\ DataType a <> VTK_UNSIGNED_CHAR.

Definition additive_with_several_components (m : vtkSinglePassVolumeMapper)
  : Prop :=
  BlendMode m = ADDITIVE_BLEND /\
  exists a, scalars_of m a /\ NumberOfComponents a <> 1.

(** A computation only ever appends to the log, also when it stops. *)
Definition extends_log {A} (c : M A) : Prop :=
  forall w : World, exists es : list event, log (snd (c w)) = log w ++ es.

(** *** What a log shows *)

Definition draw_calls (l : list event) : list Z :=
  flat_map (fun e => match e with glDrawElements n => [n] | _ => [] end) l.

Definition cerr_messages (l : list event) : list string :=
  flat_map (fun e => match e with std_cerr s => [s] | _ => [] end) l.

Definition error_messages (l : list event) : list string :=
  flat_map (fun e => match e with vtkErrorMacro s => [s] | _ => [] end) l.

Definition uniforms3f (name : string) (l : list event) : list (list Q) :=
  flat_map (fun e => match e with
                     | glUniform3f n x y z =>
                         if String.eqb n name then [[x; y; z]] else []
                     | _ => []
                     end) l.

Definition uploads (l : list event) : list (GLenum * GLenum * GLenum) :=
  flat_map (fun e => match e with
                     | glTexImage3D i _ _ _ f t => [(i, f, t)]
                     | _ => []
                     end) l.

(** Two lists of doubles with the same values. *)
Definition same_values (xs ys : list Q) : Prop := Forall2 Qeq xs ys.

(** *** More sample inputs *)

Definition sample_renderer : vtkRenderer :=
  {| Aspect := (1%Q, 1%Q); ProjectionTransformMatrix := fun _ => [];
     ViewTransformMatrix := []; CameraPosition := [0%Q; 0%Q; 5%Q] |}.

Definition with_scalars (a : vtkDataArray) (flag : Z) : vtkImageData :=
  {| Extent := [0; 9; 0; 9; 0; 9]; Spacing := [1%Q; 1%Q; 1%Q];
     Origin := [0%Q; 0%Q; 0%Q]; MTime := 5%N;
     Scalars := Some a; ScalarsCellFlag := flag |}.

(** A mapper fresh from its constructor, connected to the sample grid
    with the given scalars; its inherited [Bounds] still hold the
    uninitialised box [1, -1, 1, -1, 1, -1]. *)
Definition world_with (a : vtkDataArray) (blend : vtkBlendMode) : World :=
  {| this := create [1%Q; (-1)%Q; 1%Q; (-1)%Q; 1%Q; (-1)%Q] blend
                    (Some (with_scalars a 0)) sample_memory;
     GlobalMTime := 5%N; log := [] |}.

Definition rgba_scalars : vtkDataArray :=
  {| DataType := VTK_UNSIGNED_CHAR; NumberOfComponents := 4;
     Range := (0%Q, 255%Q) |}.

(** A volume whose four components are not independent (RGBA). *)
Definition rgba_volume : vtkVolume :=
  {| Property := sample_property [] [] 0; Matrix := [] |}.

Definition two_component_scalars : vtkDataArray :=
  {| DataType := VTK_UNSIGNED_CHAR; NumberOfComponents := 2;
     Range := (0%Q, 255%Q) |}.

(** *** The worlds the methods of vtkInternal leave behind *)

Definition initialize_events (p : Platform) : list event :=
  [gl "glewInit()"] ++
  (if glewInit_OK p
   then if GLEW_VERSION_3_3 p
        then [std_cout "Driver supports OpenGL 3.3"] else []
   else [std_cerr "Error: glewGetErrorString(err)"]) ++
  [gl "glGetError()";
   std_cout "Using GLEW"; std_cout "Vendor"; std_cout "Renderer";
   std_cout "Version"; std_cout "GLSL";
   Shader "LoadFromString" "GL_VERTEX_SHADER";
   Shader "LoadFromString" "GL_FRAGMENT_SHADER";
   Shader "CreateAndLinkProgram" ""; Shader "Use" "";
   Shader "AddAttribute" "in_vertex_pos"] ++
  map (Shader "AddUniform") uniforms ++
  [gl "glGenVertexArrays(1, CubeVAOId)"; gl "glGenBuffers(1, CubeVBOId)";
   gl "glGenBuffers(1, CubeIndicesId)"; Shader "UnUse" ""].

Definition initialized (p : Platform) (w : World) : World :=
  {| this := set_Implementation
               (vtkInternal.set_Initialized true
                  (vtkInternal.set_tables true true (Implementation (this w))))
               (this w);
     GlobalMTime := GlobalMTime w;
     log := log w ++ initialize_events p |}.

Definition loaded (enc : encoding) (said : list event) (img : vtkImageData)
    (w : World) : World :=
  let s := Implementation (this w) in
  let sizes := texture_sizes (Extent img) (vtkInternal.TextureSize s) in
  {| this := set_Implementation
               (vtkInternal.set_VolumeBuildTime (GlobalMTime w + 1)%N
                  (vtkInternal.set_TextureSize sizes
                     (vtkInternal.set_Extents (Extent img)
                        (vtkInternal.set_Scale (scale enc) s))))
               (this w);
     GlobalMTime := (GlobalMTime w + 1)%N;
     log := log w ++ generate_volume_texture ++ said ++
            [glTexImage3D (internalFormat enc) (sizes !!! 0%nat)
               (sizes !!! 1%nat) (sizes !!! 2%nat) (format enc) (type enc)] |}.

Definition geometry_events (B : list Q) : list event :=
  [gl "glBindVertexArray(CubeVAOId)";
   gl "glBindBuffer(GL_ARRAY_BUFFER, CubeVBOId)";
   glBufferData_vertices (cube_vertices B);
   gl "glEnableVertexAttribArray(in_vertex_pos)";
   gl "glVertexAttribPointer(in_vertex_pos, 3, GL_DOUBLE, GL_FALSE, 0, 0)";
   gl "glBindBuffer(GL_ELEMENT_ARRAY_BUFFER, CubeIndicesId)";
   glBufferData_indices cubeIndices;
   gl "glBindVertexArray(0)"].

(** *** A render in which nothing stops the process *)

Definition all_check_sites : list check_site :=
  [Check_Initialize; Check_LoadVolume_parameters; Check_LoadVolume_upload;
   Check_Geometry_vertices; Check_Geometry_indices;
   Check_GPURender_resources; Check_GPURender_blending].

(** No assertion fires during a render of scalars [a]: assertions are
    compiled out, or the device reports no error at any check and the
    scalar type is not an impossible case of the encoder. *)
Definition no_assertion_fires (p : Platform) (a : vtkDataArray) : bool :=
  NDEBUG p ||
  (forallb (GL_NO_ERROR_at p) all_check_sites && negb (impossible_case a)).

(** The lookup tables exist once [Initialize] has run. *)
Definition tables_created (s : vtkInternal.t) : Prop :=
  vtkInternal.Initialized s = true ->
  vtkInternal.RGBTable s = true /\ vtkInternal.OpacityTables s = true.

(** Events among which there is no draw call, no step-size or cell-scale
    uniform and no upload of the volume texture. *)
Definition quiet (es : list event) : Prop :=
  draw_calls es = [] /\ uniforms3f "step_size" es = [] /\
  uniforms3f "cell_scale" es = [] /\ uploads es = [].

(** * Properties *)

(** ** Helpers *)

Lemma Qltb_lt (x y : Q) : Qltb x y = true <-> (x < y)%Q.
Proof.
  unfold Qltb. rewrite Qlt_alt.
  destruct (x ?= y)%Q; split; congruence.
Qed.

Lemma Qltb_ge (x y : Q) : Qltb x y = false <-> (y <= x)%Q.
Proof.
  rewrite <- Bool.not_true_iff_false, Qltb_lt. split.
  - apply Qnot_lt_le.
  - intros H1 H2. exact (Qlt_not_le _ _ H2 H1).
Qed.

Lemma swapBound_cases (s : Q) :
  (vtkInternal.swapBound s = 1%nat /\ (s < 0)%Q) \/
  (vtkInternal.swapBound s = 0%nat /\ (0 <= s)%Q).
Proof.
  unfold vtkInternal.swapBound.
  destruct (Qltb s 0) eqn:E.
  - left. split; [reflexivity | now apply Qltb_lt].
  - right. split; [reflexivity | now apply Qltb_ge].
Qed.

(** An array of six doubles, cell by cell. *)
Lemma six_cells {A} (l : list A) :
  length l = 6%nat -> exists a b c d e f, l = [a; b; c; d; e; f].
Proof.
  intros H.
  do 6 (destruct l as [| ? l]; [discriminate H |]).
  destruct l; [| discriminate H]. eauto 10.
Qed.

Lemma below_three (i : nat) : (i < 3)%nat -> i = 0%nat \/ i = 1%nat \/ i = 2%nat.
Proof. lia. Qed.

(** ** ComputeBounds on point data *)

Section PointBounds.

Variable input : vtkImageData.

Lemma ComputeBounds_points_value (s : vtkInternal.t) (i : nat) :
  vtkInternal.CellFlag s = 0 ->
  length (vtkInternal.Bounds s) = 6%nat ->
  (i < 3)%nat ->
  vtkInternal.Bounds (vtkInternal.ComputeBounds input s) !!! (2 * i)%nat
    = (Origin input !!! i + inject_Z (lower_edge input i) * Spacing input !!! i)%Q /\
  vtkInternal.Bounds (vtkInternal.ComputeBounds input s) !!! (2 * i + 1)%nat
    = (Origin input !!! i + inject_Z (upper_edge input i) * Spacing input !!! i)%Q.
Proof.
  intros Hc Hl Hi.
  destruct (six_cells _ Hl) as (b0 & b1 & b2 & b3 & b4 & b5 & HB).
  unfold vtkInternal.ComputeBounds, lower_edge, upper_edge.
  cbn [vtkInternal.set_Extents vtkInternal.CellFlag vtkInternal.Bounds
       vtkInternal.Extents].
  rewrite Hc, HB. cbn [Z.eqb vtkInternal.set_Bounds vtkInternal.Bounds].
  destruct (below_three i Hi) as [-> | [-> | ->]]; split; reflexivity.
Qed.

(** The box does not depend on what [Bounds] held before the call. *)
Lemma ComputeBounds_points_eq (s : vtkInternal.t) :
  vtkInternal.CellFlag s = 0 ->
  length (vtkInternal.Bounds s) = 6%nat ->
  vtkInternal.ComputeBounds input s
  = vtkInternal.set_Bounds
      (vtkInternal.ComputeBounds_points (Extent input) (Origin input)
         (Spacing input)
         [vtkInternal.swapBound (Spacing input !!! 0%nat);
          vtkInternal.swapBound (Spacing input !!! 1%nat);
          vtkInternal.swapBound (Spacing input !!! 2%nat)]
         [0%Q; 0%Q; 0%Q; 0%Q; 0%Q; 0%Q])
      (vtkInternal.set_Extents (Extent input) s).
Proof.
  intros Hc Hl.
  destruct (six_cells _ Hl) as (b0 & b1 & b2 & b3 & b4 & b5 & HB).
  unfold vtkInternal.ComputeBounds.
  cbn [vtkInternal.set_Extents vtkInternal.CellFlag vtkInternal.Bounds
       vtkInternal.Extents].
  rewrite Hc, HB. reflexivity.
Qed.

Lemma ordered_axis (o s : Q) (e0 e1 : Z) :
  e0 <= e1 -> (0 <= s)%Q ->
  (o + inject_Z e0 * s <= o + inject_Z e1 * s)%Q.
Proof.
  intros He Hs. apply Qplus_le_r. apply Qmult_le_compat_r; [| exact Hs].
  now rewrite <- Zle_Qle.
Qed.

Lemma ordered_axis_swapped (o s : Q) (e0 e1 : Z) :
  e0 <= e1 -> (s < 0)%Q ->
  (o + inject_Z e1 * s <= o + inject_Z e0 * s)%Q.
Proof.
  intros He Hs. apply Qplus_le_r.
  assert (H : (inject_Z e0 <= inject_Z e1)%Q) by now rewrite <- Zle_Qle.
  nra.
Qed.


(** C4: in point semantics every axis bound is
    [origin + extent_edge * spacing], where the lower bound takes the upper
    edge of the extent (and the upper bound the lower edge) exactly on the
    axes whose spacing is negative; for an extent that is well ordered,
    as the data model requires, the box is min-before-max on every axis;
    a second call with the same input changes nothing, and the bounds do
    not depend on the state the call starts from. *)
Theorem ComputeBounds_points_min_before_max (s : vtkInternal.t) :
  vtkInternal.CellFlag s = 0 ->
  length (vtkInternal.Bounds s) = 6%nat ->
  extent_ordered input ->
  let s' := vtkInternal.ComputeBounds input s in
  (forall i : nat, (i < 3)%nat ->
     vtkInternal.Bounds s' !!! (2 * i)%nat
       = (Origin input !!! i
          + inject_Z (lower_edge input i) * Spacing input !!! i)%Q /\
     vtkInternal.Bounds s' !!! (2 * i + 1)%nat
       = (Origin input !!! i
          + inject_Z (upper_edge input i) * Spacing input !!! i)%Q /\
     ((Spacing input !!! i < 0)%Q ->
        lower_edge input i = Extent input !!! (2 * i + 1)%nat /\
        upper_edge input i = Extent input !!! (2 * i)%nat) /\
     ((0 <= Spacing input !!! i)%Q ->
        lower_edge input i = Extent input !!! (2 * i)%nat /\
        upper_edge input i = Extent input !!! (2 * i + 1)%nat) /\
     (vtkInternal.Bounds s' !!! (2 * i)%nat
      <= vtkInternal.Bounds s' !!! (2 * i + 1)%nat)%Q) /\
  vtkInternal.ComputeBounds input s' = s' /\
  (forall s2 : vtkInternal.t,
     vtkInternal.CellFlag s2 = 0 ->
     length (vtkInternal.Bounds s2) = 6%nat ->
     vtkInternal.Bounds (vtkInternal.ComputeBounds input s2)
     = vtkInternal.Bounds s').
Proof.
  intros Hc Hl Hord s'. split; [| split].
  - intros i Hi.
    destruct (ComputeBounds_points_value s i Hc Hl Hi) as [Hlo Hup].
    fold s' in Hlo, Hup. rewrite Hlo, Hup.
    pose proof (Hord i Hi) as He.
    split; [reflexivity |]. split; [reflexivity |].
    unfold lower_edge, upper_edge.
    destruct (swapBound_cases (Spacing input !!! i)) as [[-> Hs] | [-> Hs]].
    + replace (2 * i + 1 - 1)%nat with (2 * i)%nat by lia.
      split; [intros _; split; reflexivity |].
      split; [intros Hge; exfalso; exact (Qlt_not_le _ _ Hs Hge) |].
      now apply ordered_axis_swapped.
    + replace (2 * i + 0)%nat with (2 * i)%nat by lia.
      replace (2 * i + 1 - 0)%nat with (2 * i + 1)%nat by lia.
      split; [intros Hlt; exfalso; exact (Qlt_not_le _ _ Hlt Hs) |].
      split; [intros _; split; reflexivity |].
      now apply ordered_axis.
  - subst s'. rewrite (ComputeBounds_points_eq s Hc Hl).
    rewrite ComputeBounds_points_eq; [reflexivity | exact Hc | reflexivity].
  - intros s2 Hc2 Hl2. subst s'.
    rewrite (ComputeBounds_points_eq s Hc Hl).
    rewrite (ComputeBounds_points_eq s2 Hc2 Hl2). reflexivity.
Qed.

End PointBounds.

Lemma flipped_image_ordered : extent_ordered flipped_image.
Proof.
  intros i Hi.
  destruct (below_three i Hi) as [-> | [-> | ->]]; vm_compute; discriminate.
Qed.

(** The grid stored backwards along its second axis: the second axis runs
    from [3 + 5 * (-1/2)] to [3 + 2 * (-1/2)]. *)
Lemma ComputeBounds_points_min_before_max_witness :
  vtkInternal.CellFlag fresh_internal = 0 /\
  length (vtkInternal.Bounds fresh_internal) = 6%nat /\
  extent_ordered flipped_image /\
  vtkInternal.Bounds (vtkInternal.ComputeBounds flipped_image fresh_internal)
    !!! 2%nat = (3 + inject_Z 5 * (-1 # 2))%Q /\
  (vtkInternal.Bounds (vtkInternal.ComputeBounds flipped_image fresh_internal)
     !!! 2%nat
   <= vtkInternal.Bounds (vtkInternal.ComputeBounds flipped_image fresh_internal)
     !!! 3%nat)%Q.
Proof.
  split; [reflexivity |]. split; [reflexivity |].
  split; [exact flipped_image_ordered |].
  destruct (ComputeBounds_points_min_before_max flipped_image fresh_internal
              eq_refl eq_refl flipped_image_ordered) as [H _].
  destruct (H 1%nat ltac:(lia)) as (Hlo & _ & _ & _ & Hle).
  split; [exact Hlo | exact Hle].
Defined.

(** ** ComputeBounds on cell data *)

Lemma decrement_never_matches (e : Z) : (e =? int_wrap (e - 1)) = false.
Proof.
  apply Z.eqb_neq. unfold int_wrap.
  change (2 ^ 31) with 2147483648. change (2 ^ 32) with 4294967296.
  Z.div_mod_to_equations. lia.
Qed.

(** As [ComputeBounds] is wired, [Extents] and [wholeTextureExtent] are both
    read from the input, and the upper entries of the latter are then
    decremented: the lower edge always counts as an outer edge and gets
    [origin] alone, the upper edge never counts as one and always gets the
    half-cell offset. *)
Lemma ComputeBounds_cells_as_wired (input : vtkImageData) (s : vtkInternal.t)
    (i : nat) :
  vtkInternal.CellFlag s <> 0 ->
  length (vtkInternal.Bounds s) = 6%nat ->
  length (Extent input) = 6%nat ->
  (i < 3)%nat ->
  let sw := vtkInternal.swapBound (Spacing input !!! i) in
  vtkInternal.Bounds (vtkInternal.ComputeBounds input s) !!! (2 * i + sw)%nat
    = Origin input !!! i /\
  vtkInternal.Bounds (vtkInternal.ComputeBounds input s)
      !!! (2 * i + 1 - sw)%nat
    = (Origin input !!! i
       + (inject_Z (Extent input !!! (2 * i + 1)%nat) + (1 # 2))
         * Spacing input !!! i)%Q.
Proof.
  intros Hc Hl He Hi.
  destruct (six_cells _ Hl) as (b0 & b1 & b2 & b3 & b4 & b5 & HB).
  destruct (six_cells _ He) as (e0 & e1 & e2 & e3 & e4 & e5 & HE).
  unfold vtkInternal.ComputeBounds.
  cbn [vtkInternal.set_Extents vtkInternal.CellFlag vtkInternal.Bounds
       vtkInternal.Extents].
  apply Z.eqb_neq in Hc. rewrite Hc, HB, HE.
  cbn [vtkInternal.set_Bounds vtkInternal.Bounds].
  unfold vtkInternal.ComputeBounds_cells, vtkInternal.decrement_upper.
  cbn [foldl]. unfold vtkInternal.ComputeBounds_cells_axis.
  cbn -[Z.eqb int_wrap Qplus Qmult inject_Z vtkInternal.swapBound].
  rewrite !Z.eqb_refl, !decrement_never_matches.
  destruct (below_three i Hi) as [-> | [-> | ->]];
    cbn -[Qplus Qmult inject_Z vtkInternal.swapBound];
    destruct (swapBound_cases (Spacing input !!! 0%nat)) as [[-> _] | [-> _]];
    destruct (swapBound_cases (Spacing input !!! 1%nat)) as [[-> _] | [-> _]];
    destruct (swapBound_cases (Spacing input !!! 2%nat)) as [[-> _] | [-> _]];
    split; reflexivity.
Qed.

(** C5, the code at two whole datasets of cell data.  On the sample dataset
    (extent [0,9] on every axis) the upper boundary lands at [9 + 1/2], half
    a cell beyond the outer edge at [0 + 9 * 1]; on the block whose extent
    is [2,5] the lower boundary lands at the origin [0], not at the outer
    edge [0 + 2 * 1]. *)
Theorem ComputeBounds_cells_outer_edges :
  (vtkInternal.Bounds (vtkInternal.ComputeBounds sample_image cell_internal)
     !!! 1%nat == 19 # 2)%Q /\
  ~ (vtkInternal.Bounds (vtkInternal.ComputeBounds sample_image cell_internal)
       !!! 1%nat == 0 + inject_Z 9 * 1)%Q /\
  (vtkInternal.Bounds (vtkInternal.ComputeBounds offset_image cell_internal)
     !!! 0%nat == 0)%Q /\
  ~ (vtkInternal.Bounds (vtkInternal.ComputeBounds offset_image cell_internal)
       !!! 0%nat == 0 + inject_Z 2 * 1)%Q.
Proof.
  repeat split; vm_compute; congruence.
Qed.

(** ** The encoder of LoadVolume *)

Ltac range_arith :=
  cbv [encoded gl_normalize encoded_top type shift scale
       VTK_UNSIGNED_CHAR_MAX VTK_SIGNED_CHAR_MAX VTK_SHORT_MAX
       VTK_UNSIGNED_SHORT_MAX VTK_INT_MAX VTK_UNSIGNED_INT_MAX inject_Z];
  try (apply Qlt_shift_div_l; [lra | lra]);
  try (field; lra);
  try (split; [apply Qle_shift_div_l; lra | apply Qle_shift_div_r; lra]).

(** C3: for each of the seven supported scalar types with one component and
    a range with [range_max > range_min], the encoder returns (without
    touching the mapper) a pair with [scale > 0] whose shift cancels the
    normalised [range_min]; the affine map sends [range_min] to 0 and
    [range_max] to 1 for floats and unsigned integers, to
    [(2^b - 2) / (2^b - 1)] for signed [b]-bit integers: within [1/255] of
    the maximum normalised value 1 in every case. *)
Theorem encode_maps_range_onto_span (p : Platform) (a : vtkDataArray)
    (ScalarsRange : list Q) (w : World) :
  supported_type (DataType a) = true ->
  NumberOfComponents a = 1 ->
  (ScalarsRange !!! 0%nat < ScalarsRange !!! 1%nat)%Q ->
  exists enc : encoding,
    encode p a ScalarsRange w = (Val enc, w) /\
    (0 < scale enc)%Q /\
    (shift enc == - gl_normalize (type enc) (ScalarsRange !!! 0%nat))%Q /\
    (encoded enc (ScalarsRange !!! 0%nat) == 0)%Q /\
    (encoded enc (ScalarsRange !!! 1%nat) == encoded_top (type enc))%Q /\
    (1 - 1 / 255 <= encoded_top (type enc) <= 1)%Q.
Proof.
  intros Hty Hn Hr.
  set (r0 := ScalarsRange !!! 0%nat) in *.
  set (r1 := ScalarsRange !!! 1%nat) in *.
  unfold encode. rewrite Hn. cbn [Z.eqb Pos.eqb].
  fold r0 r1. clearbody r0 r1.
  destruct (DataType a); try discriminate Hty;
    (eexists; split; [reflexivity |]);
    (split; [range_arith | split; [range_arith | split; [range_arith |
       split; [range_arith | split; vm_compute; discriminate]]]]).
Qed.

Lemma encode_maps_range_onto_span_witness :
  supported_type (DataType short_scalars) = true /\
  NumberOfComponents short_scalars = 1 /\
  ([(-1000)%Q; 3000%Q] !!! 0%nat < [(-1000)%Q; 3000%Q] !!! 1%nat)%Q /\
  exists enc : encoding,
    encode sample_platform short_scalars [(-1000)%Q; 3000%Q] sample_world
    = (Val enc, sample_world) /\
    (0 < scale enc)%Q /\
    (shift enc == - gl_normalize (type enc) ([(-1000)%Q; 3000%Q] !!! 0%nat))%Q /\
    (encoded enc ([(-1000)%Q; 3000%Q] !!! 0%nat) == 0)%Q /\
    (encoded enc ([(-1000)%Q; 3000%Q] !!! 1%nat) == encoded_top (type enc))%Q /\
    (1 - 1 / 255 <= encoded_top (type enc) <= 1)%Q.
Proof.
  split; [reflexivity |]. split; [reflexivity |]. split; [reflexivity |].
  apply (encode_maps_range_onto_span sample_platform short_scalars
           [(-1000)%Q; 3000%Q] sample_world); reflexivity.
Defined.

(** ** LoadVolume *)

Lemma assert_passes (p : Platform) (c : bool) :
  NDEBUG p || c = true -> assert p c = ret tt.
Proof.
  unfold assert. destruct (NDEBUG p), c; intros H; try reflexivity.
  discriminate H.
Qed.

Lemma assert_stops (p : Platform) (w : World) :
  NDEBUG p = false -> assert p false w = (Abort AssertionFailed, w).
Proof. unfold assert. now intros ->. Qed.

(** Past its assertions the encoder returns the same locals in every world
    and at most adds its message to the log. *)
Lemma encode_completes (p : Platform) (a : vtkDataArray) (range : list Q) :
  NDEBUG p || negb (impossible_case a) = true ->
  exists (enc : encoding) (said : list event),
    (forall w, encode p a range w = (Val enc, add_log said w)) /\
    (said = [] \/ said = [std_cerr unsupported_message]) /\
    (no_texture_format a = true ->
       said = [std_cerr unsupported_message] /\
       internalFormat enc = GL_NONE /\ format enc = GL_NONE /\
       type enc = GL_NONE /\ scale enc = 1%Q).
Proof.
  intros H.
  assert (Hw : forall w : World, add_log [] w = w).
  { intros [m g l]. unfold add_log. cbn. now rewrite app_nil_r. }
  unfold encode, impossible_case, no_texture_format in *.
  destruct (NumberOfComponents a =? 4).
  - eexists; exists []. split; [intros w; rewrite Hw; reflexivity |].
    split; [now left | discriminate].
  - destruct (DataType a); cbn [negb andb] in *;
      try rewrite (assert_passes p false H);
      (eexists; eexists; split;
       [intros w; first [ rewrite Hw; reflexivity | reflexivity ]
       | split; [ first [ now left | now right ]
                | first [ discriminate | intros _; repeat split ] ] ]).
Qed.

(** In a build with assertions, an array that has not four components and
    is of a type the encoder has no case for stops the process inside the
    encoder. *)
Lemma encode_stops (p : Platform) (a : vtkDataArray) (range : list Q)
    (w : World) :
  NDEBUG p = false -> impossible_case a = true ->
  encode p a range w = (Abort AssertionFailed, w).
Proof.
  intros Hd Hi. unfold encode, impossible_case in *.
  destruct (NumberOfComponents a =? 4); [discriminate Hi |].
  destruct (DataType a); try discriminate Hi;
    unfold bind; now rewrite (assert_stops p w Hd).
Qed.

(** What [LoadVolume] leaves behind when no assertion stops it. *)
Lemma LoadVolume_returns (p : Platform) (img : vtkImageData)
    (a : vtkDataArray) (w : World) :
  LoadVolume_completes p a = true ->
  exists (enc : encoding) (w' : World) (said : list event),
    LoadVolume p img a w = (Val true, w') /\
    (forall w0, encode p a (vtkInternal.ScalarsRange (Implementation (this w))) w0
                = (Val enc, add_log said w0)) /\
    vtkInternal.Scale (Implementation (this w')) = scale enc /\
    vtkInternal.Extents (Implementation (this w')) = Extent img /\
    vtkInternal.VolumeBuildTime (Implementation (this w'))
      = (GlobalMTime w + 1)%N /\
    GlobalMTime w' = (GlobalMTime w + 1)%N /\
    log w' = log w ++ generate_volume_texture ++ said ++
             [glTexImage3D (internalFormat enc)
                (vtkInternal.TextureSize (Implementation (this w')) !!! 0%nat)
                (vtkInternal.TextureSize (Implementation (this w')) !!! 1%nat)
                (vtkInternal.TextureSize (Implementation (this w')) !!! 2%nat)
                (format enc) (type enc)] /\
    (no_texture_format a = true ->
       said = [std_cerr unsupported_message] /\
       internalFormat enc = GL_NONE /\ format enc = GL_NONE /\
       type enc = GL_NONE).
Proof.
  intros H. unfold LoadVolume_completes in H.
  assert (H1 : NDEBUG p || GL_NO_ERROR_at p Check_LoadVolume_parameters = true)
    by (destruct (NDEBUG p); [reflexivity | cbn in *; now destruct (GL_NO_ERROR_at p _)]).
  assert (H2 : NDEBUG p || negb (impossible_case a) = true)
    by (destruct (NDEBUG p); [reflexivity |
        cbn in *; destruct (GL_NO_ERROR_at p Check_LoadVolume_parameters),
                           (impossible_case a); cbn in *; congruence]).
  assert (H3 : NDEBUG p || GL_NO_ERROR_at p Check_LoadVolume_upload = true)
    by (destruct (NDEBUG p); [reflexivity |
        cbn in *; destruct (GL_NO_ERROR_at p Check_LoadVolume_parameters),
                           (impossible_case a),
                           (GL_NO_ERROR_at p Check_LoadVolume_upload);
        cbn in *; congruence]).
  destruct (encode_completes p a
              (vtkInternal.ScalarsRange (Implementation (this w))) H2)
    as (enc & said & Henc & _ & Hnone).
  unfold LoadVolume, GL_CHECK_ERRORS.
  rewrite (assert_passes _ _ H1), (assert_passes _ _ H3).
  cbv beta iota delta [bind emits emit impl update ret].
  cbn [this Implementation set_Implementation vtkInternal.ScalarsRange].
  rewrite Henc.
  cbv beta iota delta [add_log VolumeBuildTime_Modified].
  cbn [this GlobalMTime log Implementation set_Implementation].
  exists enc. eexists. exists said.
  split; [reflexivity |].
  split; [exact Henc |].
  cbn [this GlobalMTime log Implementation set_Implementation
       vtkInternal.Scale vtkInternal.Extents vtkInternal.VolumeBuildTime
       vtkInternal.TextureSize vtkInternal.set_VolumeBuildTime
       vtkInternal.set_TextureSize vtkInternal.set_Extents
       vtkInternal.set_Scale].
  repeat (split; [reflexivity |]).
  split.
  - rewrite <- !app_assoc. reflexivity.
  - intros Hn. destruct (Hnone Hn) as (-> & -> & -> & -> & _). repeat split.
Qed.


Lemma never_false_ret : never_false (ret true).
Proof. intros w. cbn. discriminate. Qed.

Lemma never_false_bind {A} (c : M A) (k : A -> M bool) :
  (forall x : A, never_false (k x)) -> never_false (bind c k).
Proof.
  intros Hk w. unfold bind.
  destruct (c w) as [[x | why] w1]; [apply Hk | cbn; discriminate].
Qed.

Lemma LoadVolume_never_false (p : Platform) (img : vtkImageData)
    (a : vtkDataArray) : never_false (LoadVolume p img a).
Proof.
  unfold LoadVolume.
  repeat (apply never_false_bind; intros ?).
  apply never_false_ret.
Qed.

(** C10: [LoadVolume] has no failure status: on no input does it return 0,
    and whenever no assertion stops the process (always when they are
    compiled out) it returns 1 and sets the build timestamp to the next
    value of the global counter, later than the previous build.  This
    includes the scalar types for which no texture format is selected
    (double, 64-bit integers): the upload is then issued with the formats
    still 0.  Afterwards [IsDataDirty] is false for the input just loaded,
    and turns true only for an input whose modification time is later than
    the new build time. *)
Theorem LoadVolume_returns_success_and_stamps (p : Platform)
    (img : vtkImageData) (a : vtkDataArray) (w : World) :
  fst (LoadVolume p img a w) <> Val false /\
  (LoadVolume_completes p a = true ->
   exists w' : World,
     LoadVolume p img a w = (Val true, w') /\
     vtkInternal.VolumeBuildTime (Implementation (this w'))
       = (GlobalMTime w + 1)%N /\
     ((vtkInternal.VolumeBuildTime (Implementation (this w)) <= GlobalMTime w)%N ->
      (vtkInternal.VolumeBuildTime (Implementation (this w))
       < vtkInternal.VolumeBuildTime (Implementation (this w')))%N) /\
     (no_texture_format a = true ->
      In (std_cerr unsupported_message) (log w') /\
      exists x y z : Z,
        In (glTexImage3D GL_NONE x y z GL_NONE GL_NONE) (log w')) /\
     ((MTime img <= GlobalMTime w)%N ->
      vtkInternal.IsDataDirty img (Implementation (this w')) = false) /\
     (forall img' : vtkImageData,
        vtkInternal.IsDataDirty img' (Implementation (this w')) = true <->
        (vtkInternal.VolumeBuildTime (Implementation (this w')) < MTime img')%N)).
Proof.
  split; [apply LoadVolume_never_false |].
  intros H.
  destruct (LoadVolume_returns p img a w H)
    as (enc & w' & said & Hrun & _ & _ & _ & Ht & _ & Hlog & Hnone).
  exists w'. split; [exact Hrun |]. split; [exact Ht |].
  split; [rewrite Ht; lia |].
  split.
  - intros Hn. destruct (Hnone Hn) as (Hs & Hi & Hf & Hty).
    rewrite Hlog, Hs, Hi, Hf, Hty. split.
    + rewrite !in_app_iff. right. right. left. now left.
    + do 3 eexists. rewrite !in_app_iff. right. right. right. now left.
  - split.
    + intros Hm. unfold vtkInternal.IsDataDirty. rewrite Ht.
      destruct (N.ltb_spec (GlobalMTime w + 1) (MTime img)); [lia | reflexivity].
    + intros img'. unfold vtkInternal.IsDataDirty.
      destruct (N.ltb_spec
                  (vtkInternal.VolumeBuildTime (Implementation (this w')))
                  (MTime img')); split; intros; try lia; congruence.
Qed.

(** A debug build, a device that reports no error, a field of doubles. *)
Lemma LoadVolume_returns_success_and_stamps_witness :
  LoadVolume_completes sample_platform double_scalars = true /\
  exists w' : World,
    LoadVolume sample_platform sample_image double_scalars sample_world
    = (Val true, w') /\
    vtkInternal.VolumeBuildTime (Implementation (this w')) = 6%N /\
    vtkInternal.IsDataDirty sample_image (Implementation (this w')) = false.
Proof.
  split; [reflexivity |].
  destruct (LoadVolume_returns_success_and_stamps sample_platform sample_image
              double_scalars sample_world) as [_ H].
  destruct (H eq_refl) as (w' & Hrun & Ht & _ & _ & Hclean & _).
  exists w'. split; [exact Hrun |]. split; [exact Ht |].
  apply Hclean. vm_compute. discriminate.
Defined.
(** ** The noise grid *)

(** A loop that stores [val b] at index [idx b] for each [b] of a list. *)
Section StoreLoop.

Context {A B : Type} `{Inhabited A} (idx : B -> nat) (val : B -> A).

Lemma store_length (bs : list B) (data : list A) :
  length (foldl (fun d b => <[idx b := val b]> d) data bs) = length data.
Proof.
  revert data. induction bs as [| b bs IH]; intros data; cbn; [reflexivity |].
  rewrite IH. apply length_insert.
Qed.

Lemma store_elsewhere (bs : list B) (data : list A) (k : nat) :
  Forall (fun b => idx b <> k) bs ->
  foldl (fun d b => <[idx b := val b]> d) data bs !!! k = data !!! k.
Proof.
  revert data. induction bs as [| b bs IH]; intros data Hk; cbn;
    [reflexivity |].
  inversion Hk as [| ? ? Hb Hbs]; subst.
  rewrite (IH _ Hbs). now apply list_lookup_total_insert_ne.
Qed.

(** When the writers of a cell agree on its value, the cell holds it. *)
Lemma store_written (bs : list B) (data : list A) (b : B) :
  b ∈ bs -> (idx b < length data)%nat ->
  (forall b', b' ∈ bs -> idx b' = idx b -> val b' = val b) ->
  foldl (fun d b => <[idx b := val b]> d) data bs !!! idx b = val b.
Proof.
  revert data b.
  induction bs as [| b0 bs IH]; intros data b Hin Hlen Hagree;
    [now apply elem_of_nil in Hin |].
  cbn.
  destruct (decide (Exists (fun b' => idx b' = idx b) bs)) as [Hex | Hno].
  - apply Exists_exists in Hex. destruct Hex as (b' & Hb' & Hidx).
    rewrite <- Hidx, <- (Hagree b' ltac:(now right) Hidx).
    apply IH; [exact Hb' | rewrite length_insert; lia |].
    intros b2 Hb2 H2. rewrite (Hagree b' ltac:(now right) Hidx).
    apply Hagree; [now right | congruence].
  - apply not_Exists_Forall in Hno; [| intros ?; apply _].
    rewrite store_elsewhere; [| exact Hno].
    apply elem_of_cons in Hin. destruct Hin as [-> | Hin].
    + now apply list_lookup_total_insert_eq.
    + exfalso. rewrite Forall_forall in Hno. exact (Hno b Hin eq_refl).
Qed.

End StoreLoop.

(** Two nested loops are one loop over the pairs of their indices. *)
Lemma nested_loops {A} (f : A -> nat -> nat -> A) (rows cols : list nat) (d : A) :
  foldl (fun d j => foldl (fun d i => f d j i) d cols) d rows
  = foldl (fun d ji => f d (fst ji) (snd ji)) d (list_prod rows cols).
Proof.
  revert d. induction rows as [| j rows IH]; intros d; cbn; [reflexivity |].
  rewrite foldl_app, <- IH. f_equal. clear IH.
  revert d. induction cols as [| i cols IHi]; intros d; cbn;
    [reflexivity | apply IHi].
Qed.

(** A row-major index determines its row and its column. *)
Lemma row_major_injective (n j i j' i' : nat) :
  (i < n)%nat -> (i' < n)%nat ->
  (j * n + i = j' * n + i')%nat -> j = j' /\ i = i'.
Proof.
  intros Hi Hi' E.
  assert (Hj : j = j').
  { rewrite (Nat.div_unique (j * n + i) n j i Hi ltac:(lia)).
    rewrite (Nat.div_unique (j' * n + i') n j' i' Hi' ltac:(lia)).
    now rewrite E. }
  subst j'. split; [reflexivity | lia].
Qed.

(** The grid has [size * size] cells, and cell [j * size + i] holds the
    amplitude plus the noise at [(i, j)]. *)
Lemma noise_grid_cells (p : Platform) (size : Z) (amplitude : Q) :
  0 <= size ->
  length (noise_grid p size amplitude) = Z.to_nat (size * size) /\
  forall i j : Z, 0 <= i < size -> 0 <= j < size ->
    noise_grid p size amplitude !!! Z.to_nat (j * size + i)
    = (amplitude + PerlinNoise p size amplitude i j)%Q.
Proof.
  intros Hsize. unfold noise_grid.
  set (n := Z.to_nat size).
  rewrite (nested_loops
             (fun data j i =>
                <[(j * n + i)%nat :=
                    (amplitude + PerlinNoise p size amplitude
                                   (Z.of_nat i) (Z.of_nat j))%Q]> data)).
  set (idx := fun ji : nat * nat => (fst ji * n + snd ji)%nat).
  set (val := fun ji : nat * nat =>
                (amplitude + PerlinNoise p size amplitude
                               (Z.of_nat (snd ji)) (Z.of_nat (fst ji)))%Q).
  change (foldl _ ?d0 ?l0)
    with (foldl (fun acc b => <[idx b := val b]> acc) d0 l0).
  split.
  - now rewrite store_length, length_replicate.
  - intros i j Hi Hj.
    replace (Z.to_nat (j * size + i))
      with (idx (Z.to_nat j, Z.to_nat i)) by (unfold idx; cbn; lia).
    rewrite (store_written idx val).
    + unfold val. cbn [fst snd]. now rewrite !Z2Nat.id by lia.
    + apply list_elem_of_In, in_prod; apply in_seq; lia.
    + rewrite length_replicate. unfold idx. cbn [fst snd]. nia.
    + intros [j' i'] Hin Hidx.
      apply list_elem_of_In, in_prod_iff in Hin.
      destruct Hin as [Hj' Hi']. apply in_seq in Hj', Hi'.
      unfold idx in Hidx. cbn [fst snd] in Hidx.
      destruct (row_major_injective n j' i' (Z.to_nat j) (Z.to_nat i))
        as [-> ->]; [lia | lia | exact Hidx | reflexivity].
Qed.

(** ** UpdateNoiseTexture *)

(** With a grid in place the method does nothing at all. *)
Lemma UpdateNoiseTexture_cached (p : Platform) (w : World) (grid : list Q) :
  vtkInternal.NoiseTextureData (Implementation (this w)) = Some grid ->
  UpdateNoiseTexture p w = (Val tt, w).
Proof.
  intros H. unfold UpdateNoiseTexture.
  cbv beta iota delta [bind impl]. rewrite H. reflexivity.
Qed.

Lemma UpdateNoiseTexture_first (p : Platform) (w : World) :
  vtkInternal.NoiseTextureData (Implementation (this w)) = None ->
  UpdateNoiseTexture p w = (Val tt, with_noise p w).
Proof.
  intros H. unfold UpdateNoiseTexture.
  cbv beta iota delta [bind impl emits emit update ret].
  repeat first
    [ rewrite H
    | progress cbn [this Implementation set_Implementation GlobalMTime log
                    vtkInternal.NoiseTextureData vtkInternal.set_NoiseTexture] ].
  fold (noise_size p). unfold with_noise, noise_generation.
  rewrite <- !app_assoc. reflexivity.
Qed.

(** C9: on an instance that holds no grid yet (as the constructor leaves
    it) the first call generates the grid for the clamped size, caches it
    with its size and uploads it once.  The grid it generates has
    [size * size] cells, and the cell of column [i] and row [j], stored at
    [j * size + i], holds the amplitude [0.5 * 0.1] plus the noise at
    [(i, j)]; the texture uploaded is this very grid.  Every later call,
    whatever the device answers by then, generates nothing and returns the
    world as it found it, so the cached grid and its size stay in place. *)
Theorem UpdateNoiseTexture_idempotent (p : Platform) (w : World) :
  vtkInternal.NoiseTextureData (Implementation (this w)) = None ->
  exists w1 : World,
    UpdateNoiseTexture p w = (Val tt, w1) /\
    vtkInternal.NoiseTextureData (Implementation (this w1))
      = Some (noise_grid p (noise_size p) ((1 # 2) * (1 # 10))%Q) /\
    vtkInternal.NoiseTextureSize (Implementation (this w1)) = noise_size p /\
    log w1 = log w ++ noise_generation p /\
    (forall p' : Platform, UpdateNoiseTexture p' w1 = (Val tt, w1)) /\
    (forall (p' : Platform) (w2 : World),
       vtkInternal.NoiseTextureData (Implementation (this w2))
         = vtkInternal.NoiseTextureData (Implementation (this w1)) ->
       UpdateNoiseTexture p' w2 = (Val tt, w2)) /\
    (0 <= GL_MAX_TEXTURE_SIZE p ->
     exists grid : list Q,
       vtkInternal.NoiseTextureData (Implementation (this w1)) = Some grid /\
       In (glTexImage2D (noise_size p) (Some grid)) (log w1) /\
       0 <= noise_size p <= 128 /\
       noise_size p <= GL_MAX_TEXTURE_SIZE p /\
       length grid = Z.to_nat (noise_size p * noise_size p) /\
       forall i j : Z,
         0 <= i < noise_size p -> 0 <= j < noise_size p ->
         grid !!! Z.to_nat (j * noise_size p + i)
         = ((1 # 2) * (1 # 10)
            + PerlinNoise p (noise_size p) ((1 # 2) * (1 # 10)) i j)%Q).
Proof.
  intros H. exists (with_noise p w).
  split; [now apply UpdateNoiseTexture_first |].
  split; [reflexivity |]. split; [reflexivity |]. split; [reflexivity |].
  split.
  { intros p'. now apply UpdateNoiseTexture_cached with
      (grid := noise_grid p (noise_size p) ((1 # 2) * (1 # 10))%Q). }
  split.
  { intros p' w2 H2.
    now apply UpdateNoiseTexture_cached with
      (grid := noise_grid p (noise_size p) ((1 # 2) * (1 # 10))%Q). }
  intros Hmax.
  assert (Hsize : 0 <= noise_size p <= 128 /\
                  noise_size p <= GL_MAX_TEXTURE_SIZE p).
  { unfold noise_size.
    destruct (Z.ltb_spec (GL_MAX_TEXTURE_SIZE p) 128); lia. }
  destruct (noise_grid_cells p (noise_size p) ((1 # 2) * (1 # 10))%Q)
    as [Hlen Hcells]; [lia |].
  exists (noise_grid p (noise_size p) ((1 # 2) * (1 # 10))%Q).
  split; [reflexivity |].
  split.
  { unfold with_noise, noise_generation. cbn [log].
    apply in_or_app. right. cbn. tauto. }
  split; [apply Hsize |]. split; [apply Hsize |].
  split; [exact Hlen | exact Hcells].
Qed.

(** A fresh mapper on a device whose textures are at most 2 x 2, then a
    call on another device: the grid has four cells, and the last one, of
    column 1 and row 1, holds the amplitude plus the noise at [(1, 1)]. *)
Lemma UpdateNoiseTexture_idempotent_witness :
  vtkInternal.NoiseTextureData (Implementation (this sample_world)) = None /\
  exists (w1 : World) (grid : list Q),
    UpdateNoiseTexture sample_platform sample_world = (Val tt, w1) /\
    vtkInternal.NoiseTextureSize (Implementation (this w1)) = 2 /\
    UpdateNoiseTexture other_platform w1 = (Val tt, w1) /\
    vtkInternal.NoiseTextureData (Implementation (this w1)) = Some grid /\
    length grid = 4%nat /\
    grid !!! 3%nat = ((1 # 2) * (1 # 10) + inject_Z 2)%Q.
Proof.
  split; [reflexivity |].
  destruct (UpdateNoiseTexture_idempotent sample_platform sample_world eq_refl)
    as (w1 & Hrun & _ & Hsize & _ & Hagain & _ & Hgrid).
  destruct (Hgrid ltac:(discriminate))
    as (grid & Hdata & _ & _ & _ & Hlen & Hcells).
  exists w1, grid.
  split; [exact Hrun |]. split; [exact Hsize |]. split; [apply Hagain |].
  split; [exact Hdata |]. split; [exact Hlen |].
  exact (Hcells 1 1 ltac:(split; [discriminate | reflexivity])
                    ltac:(split; [discriminate | reflexivity])).
Defined.

(** ** The transfer functions *)

Lemma set_RGBTransferFunction_same (v : vtkVolume) :
  set_RGBTransferFunction (RGBTransferFunction (Property v)) v = v.
Proof. destruct v as [[] ?]. reflexivity. Qed.

Lemma set_ScalarOpacity_same (v : vtkVolume) :
  set_ScalarOpacity (ScalarOpacity (Property v)) v = v.
Proof. destruct v as [[] ?]. reflexivity. Qed.

Lemma GetSize_empty {A} (f : list A) : (GetSize f <? 1) = true <-> f = [].
Proof.
  unfold GetSize. destruct f; cbn; [tauto |].
  split; [| discriminate]. intros H. apply Z.ltb_lt in H. lia.
Qed.

(** What the colour update does on an initialised mapper, by the size of the
    function. *)
Lemma UpdateColorTransferFunction_single (v : vtkVolume) (w : World) :
  vtkInternal.RGBTable (Implementation (this w)) = true ->
  let range := vtkInternal.ScalarsRange (Implementation (this w)) in
  let f := RGBTransferFunction (Property v) in
  let f' := if GetSize f <? 1 then f ++ default_colors range else f in
  UpdateColorTransferFunction (Some v) 1 w
  = (Val (0, Some (set_RGBTransferFunction f' v)),
     add_log [RGBTable_Update f' range (LinearInterpolation (Property v));
              gl "glActiveTexture(GL_TEXTURE0)"] w).
Proof.
  intros Ht range f f'. unfold UpdateColorTransferFunction.
  cbv beta iota delta [bind impl emit ret deref deref_table Z.eqb Pos.eqb].
  rewrite Ht. cbv beta iota.
  assert (Hf : (if GetSize (RGBTransferFunction (Property v)) <? 1
                then AddRGBPoint (range !!! 1%nat) 1 1 1
                       (AddRGBPoint (range !!! 0%nat) 0 0 0
                          (RGBTransferFunction (Property v)))
                else RGBTransferFunction (Property v)) = f').
  { subst f' f. destruct (GetSize _ <? 1); [| reflexivity].
    unfold AddRGBPoint, default_colors. now rewrite <- app_assoc. }
  fold range. rewrite Hf. unfold add_log. cbn [this GlobalMTime log].
  now rewrite <- app_assoc.
Qed.

Lemma UpdateOpacityTransferFunction_single (v : vtkVolume) (level : Z)
    (w : World) :
  vtkInternal.OpacityTables (Implementation (this w)) = true ->
  let s := Implementation (this w) in
  let range := vtkInternal.ScalarsRange s in
  let f := ScalarOpacity (Property v) in
  let f' := if GetSize f <? 1 then f ++ default_opacity range else f in
  UpdateOpacityTransferFunction (Some v) 1 level w
  = (Val (0, Some (set_ScalarOpacity f' v)),
     add_log [OpacityTable_Update level f' (vtkInternal.BlendMode s)
                (SampleDistance (this w)) range
                (ScalarOpacityUnitDistance (Property v))
                (LinearInterpolation (Property v));
              gl "glActiveTexture(GL_TEXTURE0)"] w).
Proof.
  intros Ht s range f f'. unfold UpdateOpacityTransferFunction.
  cbv beta iota delta [bind impl get_this emit ret deref_table Z.eqb Pos.eqb negb].
  rewrite Ht. cbv beta iota.
  assert (Hf : (if GetSize (ScalarOpacity (Property v)) <? 1
                then AddPoint (range !!! 1%nat) (1 # 2)
                       (AddPoint (range !!! 0%nat) 0
                          (ScalarOpacity (Property v)))
                else ScalarOpacity (Property v)) = f').
  { subst f' f. destruct (GetSize _ <? 1); [| reflexivity].
    unfold AddPoint, default_opacity. now rewrite <- app_assoc. }
  fold s. fold range. rewrite Hf. unfold add_log. cbn [this GlobalMTime log].
  now rewrite <- app_assoc.
Qed.

(** C7, as the code has it: on an initialised mapper and with one scalar
    component, a colour or opacity function that has no control point gets
    exactly the two default points (range_min to black / opacity 0,
    range_max to white / opacity 1/2) and the table is sampled from the
    seeded function; a function that has at least one point is left as it
    is; the old points always remain, in place; and as the function is not
    empty after any call, the next call does not seed again. *)
Theorem transfer_functions_seeded_when_empty (v : vtkVolume) (level : Z)
    (w : World) :
  vtkInternal.RGBTable (Implementation (this w)) = true ->
  vtkInternal.OpacityTables (Implementation (this w)) = true ->
  let s := Implementation (this w) in
  let range := vtkInternal.ScalarsRange s in
  exists (vc vo : vtkVolume) (wc wo : World),
    UpdateColorTransferFunction (Some v) 1 w = (Val (0, Some vc), wc) /\
    UpdateOpacityTransferFunction (Some v) 1 level w = (Val (0, Some vo), wo) /\
    (RGBTransferFunction (Property v) = [] ->
     RGBTransferFunction (Property vc) = default_colors range) /\
    (ScalarOpacity (Property v) = [] ->
     ScalarOpacity (Property vo) = default_opacity range) /\
    In (RGBTable_Update (RGBTransferFunction (Property vc)) range
          (LinearInterpolation (Property v))) (log wc) /\
    In (OpacityTable_Update level (ScalarOpacity (Property vo))
          (vtkInternal.BlendMode s) (SampleDistance (this w)) range
          (ScalarOpacityUnitDistance (Property v))
          (LinearInterpolation (Property v))) (log wo) /\
    (RGBTransferFunction (Property v) <> [] -> vc = v) /\
    (ScalarOpacity (Property v) <> [] -> vo = v) /\
    (exists extra, RGBTransferFunction (Property vc)
                   = RGBTransferFunction (Property v) ++ extra) /\
    (exists extra, ScalarOpacity (Property vo)
                   = ScalarOpacity (Property v) ++ extra) /\
    (forall w2 : World,
       vtkInternal.RGBTable (Implementation (this w2)) = true ->
       fst (UpdateColorTransferFunction (Some vc) 1 w2) = Val (0, Some vc)) /\
    (forall w2 : World,
       vtkInternal.OpacityTables (Implementation (this w2)) = true ->
       fst (UpdateOpacityTransferFunction (Some vo) 1 level w2)
       = Val (0, Some vo)).
Proof.
  intros Hc Ho s range.
  pose proof (UpdateColorTransferFunction_single v w Hc) as Hcol.
  pose proof (UpdateOpacityTransferFunction_single v level w Ho) as Hopa.
  cbv zeta in Hcol, Hopa. fold s in Hopa. fold range in Hcol, Hopa.
  destruct v as [[colors opacity ind lin dist shade] matrix].
  cbn [Property RGBTransferFunction ScalarOpacity set_RGBTransferFunction
       set_ScalarOpacity LinearInterpolation ScalarOpacityUnitDistance
       IndependentComponents Shade Matrix] in *.
  assert (Hsize : forall A (f : list A),
             (GetSize f <? 1) = match f with [] => true | _ => false end).
  { intros A [| x f]; [reflexivity |].
    apply Z.ltb_ge. unfold GetSize. cbn [length]. lia. }
  rewrite Hsize in Hcol, Hopa.
  do 4 eexists.
  split; [exact Hcol |]. split; [exact Hopa |].
  cbn [Property RGBTransferFunction ScalarOpacity add_log log].
  split; [intros ->; reflexivity |].
  split; [intros ->; reflexivity |].
  split; [rewrite in_app_iff; right; now left |].
  split; [rewrite in_app_iff; right; now left |].
  split.
  { intros Hne. destruct colors; [contradiction | reflexivity]. }
  split.
  { intros Hne. destruct opacity; [contradiction | reflexivity]. }
  split.
  { destruct colors; eexists; [reflexivity | now rewrite app_nil_r]. }
  split.
  { destruct opacity; eexists; [reflexivity | now rewrite app_nil_r]. }
  split.
  - intros w2 H2.
    rewrite (UpdateColorTransferFunction_single _ w2 H2).
    cbn [fst Property RGBTransferFunction set_RGBTransferFunction].
    rewrite Hsize. destruct colors; reflexivity.
  - intros w2 H2.
    rewrite (UpdateOpacityTransferFunction_single _ level w2 H2).
    cbn [fst Property ScalarOpacity set_ScalarOpacity].
    rewrite Hsize. destruct opacity; reflexivity.
Qed.

(** The functions of a new volume are seeded with the range [0, 1]. *)
Lemma transfer_functions_seeded_when_empty_witness :
  vtkInternal.RGBTable (Implementation (this ready_world)) = true /\
  vtkInternal.OpacityTables (Implementation (this ready_world)) = true /\
  exists (vc vo : vtkVolume) (wc wo : World),
    UpdateColorTransferFunction (Some empty_volume) 1 ready_world
    = (Val (0, Some vc), wc) /\
    UpdateOpacityTransferFunction (Some empty_volume) 1 0 ready_world
    = (Val (0, Some vo), wo) /\
    RGBTransferFunction (Property vc) = default_colors [0%Q; 1%Q] /\
    ScalarOpacity (Property vo) = default_opacity [0%Q; 1%Q].
Proof.
  split; [reflexivity |]. split; [reflexivity |].
  destruct (transfer_functions_seeded_when_empty empty_volume 0 ready_world
              eq_refl eq_refl)
    as (vc & vo & wc & wo & Hc & Ho & Hsc & Hso & _).
  exists vc, vo, wc, wo.
  split; [exact Hc |]. split; [exact Ho |].
  split; [exact (Hsc eq_refl) | exact (Hso eq_refl)].
Defined.

(** C7 as stated fails on the code: a function with exactly one control
    point has fewer than two, and neither update adds a point to it; and
    with four components an empty function stays empty. *)
Lemma one_point_function_is_not_seeded :
  GetSize (RGBTransferFunction (Property one_point_volume)) < 2 /\
  GetSize (ScalarOpacity (Property one_point_volume)) < 2 /\
  fst (UpdateColorTransferFunction (Some one_point_volume) 1 ready_world)
  = Val (0, Some one_point_volume) /\
  fst (UpdateOpacityTransferFunction (Some one_point_volume) 1 0 ready_world)
  = Val (0, Some one_point_volume) /\
  fst (UpdateColorTransferFunction (Some empty_volume) 4 ready_world)
  = Val (1, Some empty_volume) /\
  fst (UpdateOpacityTransferFunction (Some empty_volume) 4 0 ready_world)
  = Val (1, Some empty_volume).
Proof. repeat split. Qed.

(** ** ValidateRender and Render *)

Lemma add_log_nil (w : World) : add_log [] w = w.
Proof. destruct w. unfold add_log. cbn. now rewrite app_nil_r. Qed.

Ltac run_checks :=
  repeat (progress
    (cbv beta iota zeta delta [bind get_this impl emit ret update GetScalars deref
                          is_null fst snd this Implementation GlobalMTime
                          log set_Implementation negb andb BlendMode Input
                          Scalars ScalarsCellFlag DataType
                          NumberOfComponents Property IndependentComponents
                          vtkInternal.CellFlag vtkInternal.set_CellFlag];
     try change (good 1) with true; try change (good 0) with false)).

(** [ValidateRender] never stops the process; its status and its effects
    are those of the first failing check. *)
Lemma ValidateRender_first_failure (ren : option vtkRenderer)
    (vol : option vtkVolume) (w : World) :
  ValidateRender ren vol w
  = (Val (match first_failure ren vol (this w) with
          | Some _ => 0
          | None => 1
          end),
     validated ren vol w).
Proof.
  unfold ValidateRender, validated, validation_events, first_failure,
    reaches_input.
  destruct w as [[B blend sd input s] g l].
  destruct ren as [r |]; [| reflexivity].
  destruct vol as [[[colors opacity independent lin dist shade] matrix] |];
    [| reflexivity].
  destruct input as [[extent spacing origin mtime scalars flag] |];
    [| reflexivity].
  destruct scalars as [[ty n range] |];
    [| run_checks; rewrite <- ?app_assoc; reflexivity].
  run_checks.
  destruct (flag =? 2); [rewrite <- ?app_assoc; reflexivity |].
  destruct (unsupported_scalar_type ty);
    [run_checks; rewrite <- ?app_assoc; reflexivity |].
  destruct (unsupported_blend blend);
    [run_checks; rewrite <- ?app_assoc; reflexivity |].
  repeat (run_checks;
          match goal with
          | |- context [n =? 1] => destruct (n =? 1) eqn:?
          | |- context [n =? 4] => destruct (n =? 4) eqn:?
          | |- context [independent =? 0] => destruct (independent =? 0) eqn:?
          | |- context [bool_decide (ty = VTK_UNSIGNED_CHAR)] =>
              destruct (bool_decide (ty = VTK_UNSIGNED_CHAR)) eqn:?
          | |- context [bool_decide (blend = ADDITIVE_BLEND)] =>
              destruct (bool_decide (blend = ADDITIVE_BLEND)) eqn:?
          end);
    try discriminate; rewrite <- ?app_assoc; reflexivity.
Qed.

(** *** The log only grows *)

Create HintDb extends.

Lemma extends_ret {A} (a : A) : extends_log (ret a).
Proof. intros w. exists []. cbn. now rewrite app_nil_r. Qed.

Lemma extends_abort {A} (why : failure) : extends_log (@abort A why).
Proof. intros w. exists []. cbn. now rewrite app_nil_r. Qed.

Lemma extends_emit (e : event) : extends_log (emit e).
Proof. intros w. now exists [e]. Qed.

Lemma extends_emits (es : list event) : extends_log (emits es).
Proof. intros w. now exists es. Qed.

Lemma extends_impl : extends_log impl.
Proof. intros w. exists []. cbn. now rewrite app_nil_r. Qed.

Lemma extends_get_this : extends_log get_this.
Proof. intros w. exists []. cbn. now rewrite app_nil_r. Qed.

Lemma extends_update (f : vtkInternal.t -> vtkInternal.t) :
  extends_log (update f).
Proof. intros w. exists []. cbn. now rewrite app_nil_r. Qed.

Lemma extends_Modified : extends_log VolumeBuildTime_Modified.
Proof. intros w. exists []. cbn. now rewrite app_nil_r. Qed.

Lemma extends_bind {A B} (c : M A) (k : A -> M B) :
  extends_log c -> (forall x : A, extends_log (k x)) -> extends_log (bind c k).
Proof.
  intros Hc Hk w. unfold bind.
  destruct (Hc w) as [es Hes].
  destruct (c w) as [[x | why] w1]; cbn [snd] in *.
  - destruct (Hk x w1) as [es' Hes']. exists (es ++ es').
    now rewrite Hes', Hes, app_assoc.
  - now exists es.
Qed.

#[local] Hint Resolve extends_ret extends_abort extends_emit extends_emits
  extends_impl extends_get_this extends_update extends_Modified : extends.

Ltac extends_tac :=
  repeat first
    [ solve [auto 1 with extends]
    | apply extends_bind; [| intros ?]
    | match goal with
      | |- extends_log (if ?b then _ else _) => destruct b
      | |- extends_log (match ?x with _ => _ end) => destruct x
      end ].

Lemma extends_assert (p : Platform) (c : bool) : extends_log (assert p c).
Proof. unfold assert. extends_tac. Qed.

Lemma extends_deref {A} (ptr : option A) : extends_log (deref ptr).
Proof. unfold deref. extends_tac. Qed.

Lemma extends_deref_table (b : bool) : extends_log (deref_table b).
Proof. unfold deref_table. extends_tac. Qed.

#[local] Hint Resolve extends_assert extends_deref extends_deref_table
  : extends.

Lemma extends_GL_CHECK_ERRORS (p : Platform) (site : check_site) :
  extends_log (GL_CHECK_ERRORS p site).
Proof. unfold GL_CHECK_ERRORS. extends_tac. Qed.

Lemma extends_GetScalars (input : option vtkImageData) :
  extends_log (GetScalars input).
Proof. unfold GetScalars. extends_tac. Qed.

#[local] Hint Resolve extends_GL_CHECK_ERRORS extends_GetScalars : extends.

Lemma extends_Initialize (p : Platform) : extends_log (Initialize p).
Proof. unfold Initialize. extends_tac. Qed.

Lemma extends_encode (p : Platform) (a : vtkDataArray) (range : list Q) :
  extends_log (encode p a range).
Proof. unfold encode. cbv zeta. extends_tac. Qed.

#[local] Hint Resolve extends_Initialize extends_encode : extends.

Lemma extends_LoadVolume (p : Platform) (img : vtkImageData)
    (a : vtkDataArray) : extends_log (LoadVolume p img a).
Proof. unfold LoadVolume. extends_tac. Qed.

Lemma extends_UpdateColorTransferFunction (vol : option vtkVolume) (n : Z) :
  extends_log (UpdateColorTransferFunction vol n).
Proof. unfold UpdateColorTransferFunction. cbv zeta. extends_tac. Qed.

Lemma extends_UpdateOpacityTransferFunction (vol : option vtkVolume)
    (n level : Z) : extends_log (UpdateOpacityTransferFunction vol n level).
Proof. unfold UpdateOpacityTransferFunction. cbv zeta. extends_tac. Qed.

Lemma extends_UpdateNoiseTexture (p : Platform) :
  extends_log (UpdateNoiseTexture p).
Proof. unfold UpdateNoiseTexture. cbv zeta. extends_tac. Qed.

Lemma extends_UpdateVolumeGeometry (p : Platform) :
  extends_log (UpdateVolumeGeometry p).
Proof. unfold UpdateVolumeGeometry. cbv zeta. extends_tac. Qed.

#[local] Hint Resolve extends_LoadVolume extends_UpdateColorTransferFunction
  extends_UpdateOpacityTransferFunction extends_UpdateNoiseTexture
  extends_UpdateVolumeGeometry : extends.

(** [GPURender] starts by making the context of the renderer current, and
    that event stays in the log whatever happens next. *)
Lemma GPURender_makes_current (p : Platform) (r : vtkRenderer)
    (vol : option vtkVolume) (w : World) :
  exists es : list event,
    log (snd (GPURender p (Some r) vol w))
    = log w ++ RenderWindow_MakeCurrent :: es.
Proof.
  unfold GPURender. unfold bind at 1. cbn [deref ret].
  unfold bind at 1. cbn [emit].
  match goal with
  | |- context [snd (?k ?w1)] =>
      assert (E : extends_log k) by (cbv zeta; extends_tac);
      destruct (E w1) as [es Hes]; rewrite Hes
  end.
  exists es. cbn [log]. now rewrite <- app_assoc.
Qed.

Lemma bind_log_suffix {A B} (c : M A) (k : A -> M B) (w : World) :
  (forall x : A, extends_log (k x)) ->
  exists es : list event, log (snd (bind c k w)) = log (snd (c w)) ++ es.
Proof.
  intros Hk. unfold bind. destruct (c w) as [[x | why] w1]; cbn [snd].
  - apply Hk.
  - exists []. now rewrite app_nil_r.
Qed.

(** A render that passes validation satisfies every precondition. *)
Lemma first_failure_None (ren : option vtkRenderer) (vol : option vtkVolume)
    (m : vtkSinglePassVolumeMapper) :
  first_failure ren vol m = None ->
  exists r v img a,
    ren = Some r /\ vol = Some v /\ Input m = Some img /\
    Scalars img = Some a /\ ScalarsCellFlag img <> 2 /\
    unsupported_scalar_type (DataType a) = None /\
    unsupported_blend (BlendMode m) = false /\
    (NumberOfComponents a = 1 \/
     (NumberOfComponents a = 4 /\ IndependentComponents (Property v) = 0)) /\
    (NumberOfComponents a = 4 -> DataType a = VTK_UNSIGNED_CHAR) /\
    (NumberOfComponents a <> 1 -> BlendMode m <> ADDITIVE_BLEND).
Proof.
  unfold first_failure.
  destruct ren as [r |]; [| discriminate].
  destruct vol as [v |]; [| discriminate].
  destruct (Input m) as [img |]; [| discriminate].
  destruct (Scalars img) as [a |] eqn:Hs; [| discriminate].
  destruct (Z.eqb_spec (ScalarsCellFlag img) 2) as [| Hflag]; [discriminate |].
  destruct (unsupported_scalar_type (DataType a)) eqn:Hty; [discriminate |].
  destruct (unsupported_blend (BlendMode m)) eqn:Hblend; [discriminate |].
  destruct (Z.eqb_spec (NumberOfComponents a) 1) as [H1 | H1];
    destruct (Z.eqb_spec (NumberOfComponents a) 4) as [H4 | H4];
    destruct (Z.eqb_spec (IndependentComponents (Property v)) 0) as [Hi | Hi];
    destruct (bool_decide_reflect (DataType a = VTK_UNSIGNED_CHAR)) as [Hu | Hu];
    destruct (bool_decide_reflect (BlendMode m = ADDITIVE_BLEND)) as [Hb | Hb];
    cbn; try discriminate; intros _;
    exists r, v, img, a; repeat split; auto; try lia; try congruence.
Qed.

Lemma first_failure_rejects (ren : option vtkRenderer)
    (vol : option vtkVolume) (m : vtkSinglePassVolumeMapper) :
  ren = None \/ vol = None \/ Input m = None \/ field_associated m \/
  component_count_unsupported vol m \/ four_components_of_other_type m \/
  additive_with_several_components m ->
  first_failure ren vol m <> None.
Proof.
  intros Hbad Hnone.
  destruct (first_failure_None ren vol m Hnone)
    as (r & v & img & a & Hr & Hv & Hin & Hs & Hflag & _ & _ & Hn & Hu & Hadd).
  destruct Hbad as [H | [H | [H | [H | [H | [H | H]]]]]]; try congruence.
  - destruct H as (img' & a' & Hin' & _ & Hflag'). congruence.
  - destruct H as (a' & (img' & Hin' & Hs') & Hn1 & Hn4).
    assert (a' = a) by congruence. subst a'.
    destruct Hn as [Hn | [Hn Hi]]; [contradiction |].
    apply Hn4. split; [exact Hn |]. now exists v.
  - destruct H as (a' & (img' & Hin' & Hs') & Hn4 & Hty).
    assert (a' = a) by congruence. subst a'. auto.
  - destruct H as (Hb & a' & (img' & Hin' & Hs') & Hn1).
    assert (a' = a) by congruence. subst a'. now apply Hadd.
Qed.

(** C2: [ValidateRender] always returns, with status 0 or 1.  It returns 0
    whenever the renderer is null, the volume is null, the input is
    missing, the scalars are field data, the component count is neither 1
    nor 4 with non-independent components, four-component data is not
    unsigned char, or the blend mode is additive with other than one
    component.  A failing validation reports exactly one error, as its last
    effect (the checks after the first failure are skipped; a null
    renderer, volume or input is reported before the input is updated or
    touched); a passing one reports none.  [Render] runs [GPURender], whose
    first effect is to make the render window current, exactly when the
    status is 1. *)
Theorem ValidateRender_rejects_and_gates_render (p : Platform)
    (ren : option vtkRenderer) (vol : option vtkVolume) (w : World) :
  exists (status : Z) (w1 : World) (said : list event),
    ValidateRender ren vol w = (Val status, w1) /\
    (status = 0 \/ status = 1) /\
    (ren = None \/ vol = None \/ Input (this w) = None \/
     field_associated (this w) \/
     component_count_unsupported vol (this w) \/
     four_components_of_other_type (this w) \/
     additive_with_several_components (this w) -> status = 0) /\
    log w1 = log w ++ said /\
    (status = 0 ->
     exists message : string,
       said = [vtkErrorMacro message] \/
       said = [InputAlgorithm_Update; vtkErrorMacro message]) /\
    (status = 1 -> said = [InputAlgorithm_Update]) /\
    (ren = None \/ vol = None \/ Input (this w) = None ->
     this w1 = this w /\ exists message, said = [vtkErrorMacro message]) /\
    exists more : list event,
      log (snd (Render p ren vol w))
      = log w ++ [InvokeEvent "VolumeMapperRenderStartEvent"] ++ said ++ more /\
      (In RenderWindow_MakeCurrent more <-> status = 1).
Proof.
  exists (match first_failure ren vol (this w) with Some _ => 0 | None => 1 end),
    (validated ren vol w), (validation_events ren vol (this w)).
  split; [apply ValidateRender_first_failure |].
  split; [destruct (first_failure _ _ _); auto |].
  split.
  { intros Hbad. pose proof (first_failure_rejects _ _ _ Hbad).
    destruct (first_failure _ _ _); congruence. }
  split; [reflexivity |].
  split.
  { unfold validation_events.
    destruct (first_failure _ _ _) as [message |]; [| discriminate].
    intros _. exists message.
    destruct (reaches_input _ _ _); [now right | now left]. }
  split.
  { unfold validation_events.
    destruct (first_failure ren vol (this w)) eqn:Hf; [discriminate |].
    intros _.
    destruct (first_failure_None _ _ _ Hf)
      as (r & v & img & a & -> & -> & Hin & _).
    unfold reaches_input. now rewrite Hin. }
  split.
  { intros Hnull. unfold validated, validation_events, reaches_input,
      first_failure.
    destruct ren; [destruct vol; [destruct (Input (this w)) |] |]; cbn;
      try (split; [reflexivity | eexists; reflexivity]).
    destruct Hnull as [H | [H | H]]; discriminate H. }
  unfold Render. unfold bind at 1. cbn [emit].
  unfold bind at 1.
  rewrite ValidateRender_first_failure. cbn [this].
  destruct (first_failure ren vol (this w)) eqn:Hf.
  - change (good 0) with false. cbv iota.
    unfold bind, ret, emit. cbn [snd log validated].
    exists [InvokeEvent "VolumeMapperRenderEndEvent"].
    split.
    + unfold validation_events. cbn [this]. rewrite Hf.
      now rewrite <- !app_assoc.
    + split; [| discriminate].
      intros [H | []]. discriminate H.
  - change (good 1) with true. cbv iota.
    destruct (first_failure_None _ _ _ Hf)
      as (r & v & img & a & -> & -> & Hin & _).
    match goal with
    | |- context [bind ?c ?k ?w1] =>
        destruct (bind_log_suffix c k w1) as [es2 H2];
          [intros ?; extends_tac |];
        destruct (GPURender_makes_current p r (Some v) w1) as [es1 H1]
    end.
    exists (RenderWindow_MakeCurrent :: es1 ++ es2).
    split; [| split; [reflexivity | intros _; now left]].
    rewrite H2, H1. cbn [log validated]. unfold validation_events.
    cbn [this]. rewrite Hf. now rewrite <- !app_assoc.
Qed.

(** Additive blending of four-component data: one error, no render. *)
Lemma ValidateRender_rejects_and_gates_render_witness :
  additive_with_several_components (this (world_with rgba_scalars ADDITIVE_BLEND)) /\
  fst (ValidateRender (Some sample_renderer) (Some rgba_volume)
         (world_with rgba_scalars ADDITIVE_BLEND)) = Val 0.
Proof.
  assert (H : additive_with_several_components
                (this (world_with rgba_scalars ADDITIVE_BLEND))).
  { split; [reflexivity |]. exists rgba_scalars. split; [| discriminate].
    now exists (with_scalars rgba_scalars 0). }
  split; [exact H |].
  destruct (ValidateRender_rejects_and_gates_render sample_platform
              (Some sample_renderer) (Some rgba_volume)
              (world_with rgba_scalars ADDITIVE_BLEND))
    as (status & w1 & said & Hrun & _ & Hrej & _).
  rewrite Hrun. cbn [fst]. f_equal. apply Hrej. tauto.
Defined.

(** ** Three renders, run on the code *)

(** C1, the code on a field of doubles, a type outside the supported set:
    validation returns 1, and the render goes on to the encoder, which
    prints its message and uploads the texture with all three formats
    still 0, and to the draw call. *)
Theorem double_scalars_pass_validation :
  supported_type (DataType double_scalars) = false /\
  fst (ValidateRender (Some sample_renderer) (Some empty_volume)
         (world_with double_scalars COMPOSITE_BLEND)) = Val 1 /\
  let w' := snd (Render sample_platform (Some sample_renderer)
                   (Some empty_volume)
                   (world_with double_scalars COMPOSITE_BLEND)) in
  error_messages (log w') = [] /\
  cerr_messages (log w') = [unsupported_message] /\
  uploads (log w') = [(GL_NONE, GL_NONE, GL_NONE)] /\
  draw_calls (log w') = [36].
Proof. vm_compute. repeat split. Qed.

(** C6 as stated fails on the code.  Four-component RGBA data passes
    validation; both table updates return 1; the render window then shows
    both diagnostics, and the frame is drawn all the same. *)
Lemma rgba_frame_is_drawn_after_failed_updates :
  fst (ValidateRender (Some sample_renderer) (Some rgba_volume)
         (world_with rgba_scalars COMPOSITE_BLEND)) = Val 1 /\
  fst (UpdateOpacityTransferFunction (Some rgba_volume) 4 0 ready_world)
  = Val (1, Some rgba_volume) /\
  fst (UpdateColorTransferFunction (Some rgba_volume) 4 ready_world)
  = Val (1, Some rgba_volume) /\
  let w' := snd (Render sample_platform (Some sample_renderer)
                   (Some rgba_volume)
                   (world_with rgba_scalars COMPOSITE_BLEND)) in
  cerr_messages (log w') = [multi_component_message; multi_component_message] /\
  draw_calls (log w') = [36].
Proof. vm_compute. repeat split. Qed.

(** C8, the code on the sample dataset with a mapper whose inherited
    [Bounds] were never refreshed: [ComputeBounds] stores the box
    [0, 9] x [0, 9] x [0, 9] in the implementation object, but the step
    size and the cell scale are computed from the inherited array
    [1, -1, 1, -1, 1, -1]: [1 / (-1 - 1)] and [(-1 - 1) / 2] on every axis,
    not [1/9] and [9/2]. *)
Theorem step_size_ignores_computed_bounds :
  let w' := snd (Render sample_platform (Some sample_renderer)
                   (Some empty_volume)
                   (world_with float_scalars COMPOSITE_BLEND)) in
  same_values (vtkInternal.Bounds (Implementation (this w')))
              [0; 9; 0; 9; 0; 9]%Q /\
  Bounds (this w') = [1; -1; 1; -1; 1; -1]%Q /\
  (exists s, uniforms3f "step_size" (log w') = [s] /\
             same_values s [-(1 # 2); -(1 # 2); -(1 # 2)]%Q /\
             ~ same_values s [1 # 9; 1 # 9; 1 # 9]%Q) /\
  (exists c, uniforms3f "cell_scale" (log w') = [c] /\
             same_values c [-1; -1; -1]%Q /\
             ~ same_values c [9 # 2; 9 # 2; 9 # 2]%Q) /\
  draw_calls (log w') = [36].
Proof.
  vm_compute.
  split; [repeat constructor |]. split; [reflexivity |].
  split.
  { eexists. split; [reflexivity |].
    split; [repeat constructor |].
    intros H. inversion H as [| ? ? ? ? Hq _]. discriminate Hq. }
  split; [| reflexivity].
  eexists. split; [reflexivity |].
  split; [repeat constructor |].
  intros H. inversion H as [| ? ? ? ? Hq _]. discriminate Hq.
Qed.
(** ** Validation and the scalar type *)

(** The types of the encoder's message branch are not among those the
    [switch] of [ValidateRender] rejects. *)
Lemma no_texture_format_passes_type_check (a : vtkDataArray) :
  no_texture_format a = true ->
  supported_type (DataType a) = false /\
  unsupported_scalar_type (DataType a) = None.
Proof.
  unfold no_texture_format.
  destruct (NumberOfComponents a =? 4); [discriminate |].
  destruct (DataType a); try discriminate; now split.
Qed.

(** One-component point or cell data of such a type passes validation,
    whatever the supported blend mode. *)
Lemma no_texture_format_passes_validation (r : vtkRenderer) (v : vtkVolume)
    (img : vtkImageData) (a : vtkDataArray) (w : World) :
  Input (this w) = Some img -> Scalars img = Some a ->
  ScalarsCellFlag img <> 2 ->
  unsupported_blend (BlendMode (this w)) = false ->
  NumberOfComponents a = 1 ->
  no_texture_format a = true ->
  fst (ValidateRender (Some r) (Some v) w) = Val 1.
Proof.
  intros Hin Hs Hflag Hblend Hn Hty.
  rewrite ValidateRender_first_failure. cbn [fst].
  destruct (no_texture_format_passes_type_check a Hty) as [_ Hsw].
  unfold first_failure. rewrite Hin, Hs, Hsw, Hblend, Hn.
  apply Z.eqb_neq in Hflag. rewrite Hflag. reflexivity.
Qed.

(** Validation does keep the four types it names away from the encoder:
    a render that passes never reaches their assertions. *)
Lemma validated_types_miss_named_assertions (ren : option vtkRenderer)
    (vol : option vtkVolume) (w : World) :
  fst (ValidateRender ren vol w) = Val 1 ->
  exists img a,
    Input (this w) = Some img /\ Scalars img = Some a /\
    DataType a <> VTK_CHAR /\ DataType a <> VTK_BIT /\
    DataType a <> VTK_ID_TYPE /\ DataType a <> VTK_STRING.
Proof.
  rewrite ValidateRender_first_failure. cbn [fst].
  destruct (first_failure ren vol (this w)) eqn:Hf; [discriminate |].
  intros _.
  destruct (first_failure_None _ _ _ Hf)
    as (r & v & img & a & _ & _ & Hin & Hs & _ & Hty & _).
  exists img, a. split; [exact Hin |]. split; [exact Hs |].
  destruct (DataType a); try discriminate Hty; repeat split; discriminate.
Qed.

(** A field of platform-dependent chars on the sample grid: one error, no
    upload and no draw call. *)
Lemma char_scalars_are_rejected :
  let run := Render sample_platform (Some sample_renderer) (Some empty_volume)
               (world_with char_scalars COMPOSITE_BLEND) in
  fst (ValidateRender (Some sample_renderer) (Some empty_volume)
         (world_with char_scalars COMPOSITE_BLEND)) = Val 0 /\
  fst run = Val (Some empty_volume) /\
  length (error_messages (log (snd run))) = 1%nat /\
  uploads (log (snd run)) = [] /\
  draw_calls (log (snd run)) = [].
Proof. vm_compute. repeat split. Qed.

(** Two independent components: validation turns the data away before the
    table updates are ever called. *)
Lemma two_component_scalars_are_rejected :
  let run := Render sample_platform (Some sample_renderer) (Some empty_volume)
               (world_with two_component_scalars COMPOSITE_BLEND) in
  fst run = Val (Some empty_volume) /\
  error_messages (log (snd run)) = [components_not_supported] /\
  cerr_messages (log (snd run)) = [] /\
  draw_calls (log (snd run)) = [].
Proof. vm_compute. repeat split. Qed.

(** ** GPURender, step by step *)

Lemma Initialize_returns (p : Platform) (w : World) :
  NDEBUG p || GL_NO_ERROR_at p Check_Initialize = true ->
  Initialize p w = (Val tt, initialized p w).
Proof.
  intros H. unfold Initialize, GL_CHECK_ERRORS.
  rewrite (assert_passes _ _ H).
  unfold initialized, initialize_events.
  destruct (glewInit_OK p), (GLEW_VERSION_3_3 p);
    cbv beta iota delta [bind emit emits update ret];
    cbn [this GlobalMTime log Implementation set_Implementation];
    rewrite <- ?app_assoc; reflexivity.
Qed.

Lemma LoadVolume_loaded (p : Platform) (img : vtkImageData)
    (a : vtkDataArray) (enc : encoding) (said : list event) (w : World) :
  NDEBUG p || GL_NO_ERROR_at p Check_LoadVolume_parameters = true ->
  NDEBUG p || GL_NO_ERROR_at p Check_LoadVolume_upload = true ->
  (forall w0, encode p a (vtkInternal.ScalarsRange (Implementation (this w))) w0
              = (Val enc, add_log said w0)) ->
  LoadVolume p img a w = (Val true, loaded enc said img w).
Proof.
  intros H1 H3 Henc. unfold LoadVolume, GL_CHECK_ERRORS.
  rewrite (assert_passes _ _ H1), (assert_passes _ _ H3).
  cbv beta iota delta [bind emits emit impl update ret].
  cbn [this Implementation set_Implementation vtkInternal.ScalarsRange].
  rewrite Henc.
  cbv beta iota delta [add_log VolumeBuildTime_Modified loaded].
  cbn [this GlobalMTime log Implementation set_Implementation
       vtkInternal.Extents vtkInternal.TextureSize
       vtkInternal.set_TextureSize vtkInternal.set_Extents
       vtkInternal.set_Scale].
  rewrite <- !app_assoc. reflexivity.
Qed.

Lemma UpdateVolumeGeometry_returns (p : Platform) (w : World) :
  NDEBUG p || GL_NO_ERROR_at p Check_Geometry_vertices = true ->
  NDEBUG p || GL_NO_ERROR_at p Check_Geometry_indices = true ->
  UpdateVolumeGeometry p w
  = (Val tt,
     add_log (geometry_events (vtkInternal.Bounds (Implementation (this w)))) w).
Proof.
  intros H1 H2. unfold UpdateVolumeGeometry, GL_CHECK_ERRORS.
  rewrite (assert_passes _ _ H1), (assert_passes _ _ H2).
  cbv beta iota zeta delta [bind emits emit impl ret add_log geometry_events].
  cbn [this GlobalMTime log]. rewrite <- !app_assoc. reflexivity.
Qed.

Lemma UpdateColorTransferFunction_multi (vol : option vtkVolume) (n : Z)
    (w : World) :
  n <> 1 ->
  UpdateColorTransferFunction vol n w
  = (Val (1, vol), add_log [std_cerr multi_component_message] w).
Proof.
  intros Hn. unfold UpdateColorTransferFunction.
  apply Z.eqb_neq in Hn. rewrite Hn. reflexivity.
Qed.

Lemma UpdateOpacityTransferFunction_multi (v : vtkVolume) (n level : Z)
    (w : World) :
  n <> 1 ->
  UpdateOpacityTransferFunction (Some v) n level w
  = (Val (1, Some v), add_log [std_cerr multi_component_message] w).
Proof.
  intros Hn. unfold UpdateOpacityTransferFunction.
  apply Z.eqb_neq in Hn. rewrite Hn. reflexivity.
Qed.

Lemma UpdateNoiseTexture_returns (p : Platform) (w : World) :
  UpdateNoiseTexture p w
  = (Val tt,
     match vtkInternal.NoiseTextureData (Implementation (this w)) with
     | Some _ => w
     | None => with_noise p w
     end).
Proof.
  destruct (vtkInternal.NoiseTextureData (Implementation (this w))) eqn:H.
  - now apply UpdateNoiseTexture_cached with (grid := l).
  - now apply UpdateNoiseTexture_first.
Qed.

Lemma three_cells {A} (l : list A) :
  length l = 3%nat -> exists a b c, l = [a; b; c].
Proof.
  intros H.
  do 3 (destruct l as [| ? l]; [discriminate H |]).
  destruct l; [| discriminate H]. eauto.
Qed.

(** Whatever the cell flag, [ComputeBounds] writes [Extents] and [Bounds]
    and nothing else. *)
Lemma ComputeBounds_shape (img : vtkImageData) (s : vtkInternal.t) :
  vtkInternal.ComputeBounds img s
  = vtkInternal.set_Bounds
      (vtkInternal.Bounds (vtkInternal.ComputeBounds img s))
      (vtkInternal.set_Extents (Extent img) s).
Proof.
  unfold vtkInternal.ComputeBounds.
  cbn [vtkInternal.set_Extents vtkInternal.CellFlag].
  destruct (vtkInternal.CellFlag s =? 0); reflexivity.
Qed.

Lemma site_passes (p : Platform) (a : vtkDataArray) (site : check_site) :
  no_assertion_fires p a = true ->
  NDEBUG p || GL_NO_ERROR_at p site = true.
Proof.
  unfold no_assertion_fires. destruct (NDEBUG p); [reflexivity |].
  cbn [orb]. intros H. apply andb_prop in H as [H _].
  rewrite forallb_forall in H. apply H. destruct site; cbn; tauto.
Qed.

Lemma type_passes (p : Platform) (a : vtkDataArray) :
  no_assertion_fires p a = true ->
  NDEBUG p || negb (impossible_case a) = true.
Proof.
  unfold no_assertion_fires. destruct (NDEBUG p); [reflexivity |].
  cbn [orb]. intros H. now apply andb_prop in H as [_ H].
Qed.

Lemma GL_CHECK_passes (p : Platform) (site : check_site) :
  NDEBUG p || GL_NO_ERROR_at p site = true -> GL_CHECK_ERRORS p site = ret tt.
Proof. intros H. unfold GL_CHECK_ERRORS. now apply assert_passes. Qed.

(** The two table updates for any component count. *)
Lemma UpdateOpacityTransferFunction_returns (v : vtkVolume) (n level : Z)
    (w : World) :
  vtkInternal.OpacityTables (Implementation (this w)) = true ->
  exists (status : Z) (v' : vtkVolume) (es : list event),
    UpdateOpacityTransferFunction (Some v) n level w
    = (Val (status, Some v'), add_log es w) /\ quiet es /\
    (n <> 1 -> status = 1 /\ v' = v /\ es = [std_cerr multi_component_message]).
Proof.
  intros Ht. destruct (Z.eq_dec n 1) as [-> | Hn].
  - rewrite (UpdateOpacityTransferFunction_single v level w Ht).
    do 3 eexists. split; [reflexivity |].
    repeat split; try reflexivity; congruence.
  - rewrite (UpdateOpacityTransferFunction_multi v n level w Hn).
    do 3 eexists. split; [reflexivity |]. repeat split; reflexivity.
Qed.

Lemma UpdateColorTransferFunction_returns (v : vtkVolume) (n : Z)
    (w : World) :
  vtkInternal.RGBTable (Implementation (this w)) = true ->
  exists (status : Z) (v' : vtkVolume) (es : list event),
    UpdateColorTransferFunction (Some v) n w
    = (Val (status, Some v'), add_log es w) /\ quiet es /\
    (n <> 1 -> status = 1 /\ v' = v /\ es = [std_cerr multi_component_message]).
Proof.
  intros Ht. destruct (Z.eq_dec n 1) as [-> | Hn].
  - rewrite (UpdateColorTransferFunction_single v w Ht).
    do 3 eexists. split; [reflexivity |].
    repeat split; try reflexivity; congruence.
  - rewrite (UpdateColorTransferFunction_multi (Some v) n w Hn).
    do 3 eexists. split; [reflexivity |]. repeat split; reflexivity.
Qed.

Ltac render_step :=
  cbv beta iota zeta delta
    [bind ret emit emits get_this impl update deref deref_table GetScalars
     add_log initialized loaded with_noise
     this GlobalMTime log Input Bounds BlendMode SampleDistance Implementation
     set_Implementation negb MTime Scalars ScalarsCellFlag Extent
     vtkInternal.IsInitialized vtkInternal.IsDataDirty
     vtkInternal.Initialized vtkInternal.CellFlag vtkInternal.TextureSize
     vtkInternal.BlendMode vtkInternal.ScalarsRange vtkInternal.Bounds
     vtkInternal.Extents vtkInternal.StepSize vtkInternal.CellScale
     vtkInternal.Scale vtkInternal.NoiseTextureData
     vtkInternal.NoiseTextureSize vtkInternal.RGBTable
     vtkInternal.OpacityTables vtkInternal.VolumeBuildTime
     vtkInternal.set_Initialized vtkInternal.set_CellFlag
     vtkInternal.set_TextureSize vtkInternal.set_ScalarsRange
     vtkInternal.set_Bounds vtkInternal.set_Extents vtkInternal.set_StepSize
     vtkInternal.set_CellScale vtkInternal.set_Scale
     vtkInternal.set_NoiseTexture vtkInternal.set_tables
     vtkInternal.set_VolumeBuildTime];
  cbn [fst snd].

Lemma quiet_app (es1 es2 : list event) :
  quiet es1 -> quiet es2 -> quiet (es1 ++ es2).
Proof.
  unfold quiet, draw_calls, uniforms3f, uploads.
  intros (H1 & H2 & H3 & H4) (H5 & H6 & H7 & H8).
  rewrite !flat_map_app, H1, H2, H3, H4, H5, H6, H7, H8. repeat split.
Qed.

Lemma quiet_initialize_events (p : Platform) : quiet (initialize_events p).
Proof.
  unfold initialize_events.
  destruct (glewInit_OK p), (GLEW_VERSION_3_3 p); repeat split.
Qed.

Lemma quiet_generate_volume_texture : quiet generate_volume_texture.
Proof. repeat split. Qed.

Lemma quiet_geometry_events (B : list Q) : quiet (geometry_events B).
Proof. repeat split. Qed.

Lemma quiet_noise_generation (p : Platform) : quiet (noise_generation p).
Proof. repeat split. Qed.

(** A render whose preconditions hold and in which no assertion fires runs
    to its end: it issues one draw call of 36 indices, and the step size and
    cell scale it sends are computed from the mapper's own [Bounds]. *)
Lemma GPURender_completes (p : Platform) (r : vtkRenderer) (v : vtkVolume)
    (img : vtkImageData) (a : vtkDataArray) (w : World) :
  Input (this w) = Some img ->
  Scalars img = Some a ->
  no_assertion_fires p a = true ->
  tables_created (Implementation (this w)) ->
  vtkInternal.wf (Implementation (this w)) ->
  let B := Bounds (this w) in
  exists (v' : vtkVolume) (w' : World),
    GPURender p (Some r) (Some v) w = (Val (Some v'), w') /\
    draw_calls (log w') = draw_calls (log w) ++ [36] /\
    uniforms3f "step_size" (log w')
    = uniforms3f "step_size" (log w) ++
      [[(1 / (B !!! 1%nat - B !!! 0%nat))%Q;
        (1 / (B !!! 3%nat - B !!! 2%nat))%Q;
        (1 / (B !!! 5%nat - B !!! 4%nat))%Q]] /\
    uniforms3f "cell_scale" (log w')
    = uniforms3f "cell_scale" (log w) ++
      [[((B !!! 1%nat - B !!! 0%nat) * (1 # 2))%Q;
        ((B !!! 3%nat - B !!! 2%nat) * (1 # 2))%Q;
        ((B !!! 5%nat - B !!! 4%nat) * (1 # 2))%Q]] /\
    Bounds (this w') = B /\
    (NumberOfComponents a <> 1 -> v' = v) /\
    (vtkInternal.IsDataDirty img (Implementation (this w)) = false ->
     uploads (log w') = uploads (log w)).
Proof.
  intros Hin Hsc Hok Htab (_ & _ & _ & _ & Hstep & Hcell) B.
  destruct (three_cells _ Hstep) as (s0 & s1 & s2 & Hs).
  destruct (three_cells _ Hcell) as (c0 & c1 & c2 & Hc).
  destruct (encode_completes p a [fst (Range a); snd (Range a)]
              (type_passes p a Hok)) as (enc & said & Henc & Hsaid & _).
  pose proof (fun site => site_passes p a site Hok) as Hsite.
  clear Hstep Hcell.
  destruct w as [[Bm blend sd input s] g l].
  cbn [this Input Implementation Bounds log SampleDistance] in *.
  subst input B.
  destruct img as [extent spacing origin mtime scalars flag].
  cbn [Scalars] in Hsc. subst scalars.
  destruct s as [init cf ts bm sr Bs ex ss cs sc nd ns rgb op vbt].
  cbn [vtkInternal.StepSize vtkInternal.CellScale] in Hs, Hc. subst ss cs.
  unfold tables_created in Htab.
  cbn [vtkInternal.Initialized vtkInternal.RGBTable vtkInternal.OpacityTables]
    in Htab.
  assert (Hquiet_said : quiet said).
  { destruct Hsaid as [-> | ->]; repeat split. }
  unfold GPURender.
  rewrite !(GL_CHECK_passes p _ (Hsite _)).
  render_step.
  destruct init;
    [destruct (Htab eq_refl) as [-> ->]
    | rewrite Initialize_returns by apply Hsite];
    render_step.
  all: match goal with
       | |- context [(?x <? ?y)%N] => destruct (x <? y)%N eqn:Hdirty
       end.
  all: render_step.
  all: try (rewrite ComputeBounds_shape;
            match goal with
            | |- context [vtkInternal.Bounds (vtkInternal.ComputeBounds ?i ?s)] =>
                set (Bc := vtkInternal.Bounds (vtkInternal.ComputeBounds i s))
            end;
            render_step;
            rewrite (LoadVolume_loaded p _ a enc said _ (Hsite _) (Hsite _))
              by (intros; apply Henc);
            render_step;
            rewrite UpdateVolumeGeometry_returns by apply Hsite;
            render_step).
  all: match goal with
       | |- context [UpdateOpacityTransferFunction (Some ?v) ?n ?lv ?W] =>
           destruct (UpdateOpacityTransferFunction_returns v n lv W eq_refl)
             as (so & vo & eo & Ho & Hqo & Hno); rewrite Ho; clear Ho
       end.
  all: render_step.
  all: match goal with
       | |- context [UpdateColorTransferFunction (Some ?v) ?n ?W] =>
           destruct (UpdateColorTransferFunction_returns v n W eq_refl)
             as (sco & vc & ec & Hco & Hqc & Hnc); rewrite Hco; clear Hco
       end.
  all: render_step.
  all: rewrite UpdateNoiseTexture_returns; render_step.
  all: destruct nd; render_step.
  all: do 2 eexists.
  all: split; [reflexivity |].
  all: cbn [log this Bounds].
  all: destruct Hquiet_said as (Hs1 & Hs2 & Hs3 & Hs4);
       destruct Hqo as (Ho1 & Ho2 & Ho3 & Ho4);
       destruct Hqc as (Hc1 & Hc2 & Hc3 & Hc4);
       destruct (quiet_initialize_events p) as (Hi1 & Hi2 & Hi3 & Hi4);
       destruct (quiet_noise_generation p) as (Hn1 & Hn2 & Hn3 & Hn4).
  all: unfold draw_calls, uniforms3f, uploads in *.
  all: rewrite !flat_map_app.
  all: rewrite ?Hs1, ?Hs2, ?Hs3, ?Hs4, ?Ho1, ?Ho2, ?Ho3, ?Ho4,
         ?Hc1, ?Hc2, ?Hc3, ?Hc4, ?Hi1, ?Hi2, ?Hi3, ?Hi4,
         ?Hn1, ?Hn2, ?Hn3, ?Hn4.
  all: cbn [flat_map app generate_volume_texture geometry_events
            restore_state String.eqb Ascii.eqb Bool.eqb].
  all: rewrite ?app_nil_r.
  all: repeat (split; [reflexivity |]).
  all: (split;
        [ intros Hn; destruct (Hno Hn) as (_ & Hvo & _);
          destruct (Hnc Hn) as (_ & Hvc & _); congruence
        | first [ reflexivity | intros Hclean; discriminate Hclean ] ]).
Qed.

(** C6, as the code has it: with a component count other than 1 each of the
    two table updates returns 1 and prints its diagnostic, touching neither
    the volume nor the tables; [GPURender] does not look at the status: when
    its preconditions hold and no assertion fires it runs to its end and
    issues the draw call of the frame. *)
Theorem table_update_failure_is_only_logged (p : Platform) (r : vtkRenderer)
    (v : vtkVolume) (img : vtkImageData) (a : vtkDataArray) (level : Z)
    (w : World) :
  NumberOfComponents a <> 1 ->
  Input (this w) = Some img ->
  Scalars img = Some a ->
  no_assertion_fires p a = true ->
  tables_created (Implementation (this w)) ->
  vtkInternal.wf (Implementation (this w)) ->
  UpdateColorTransferFunction (Some v) (NumberOfComponents a) w
  = (Val (1, Some v), add_log [std_cerr multi_component_message] w) /\
  UpdateOpacityTransferFunction (Some v) (NumberOfComponents a) level w
  = (Val (1, Some v), add_log [std_cerr multi_component_message] w) /\
  exists w' : World,
    GPURender p (Some r) (Some v) w = (Val (Some v), w') /\
    draw_calls (log w') = draw_calls (log w) ++ [36].
Proof.
  intros Hn Hin Hsc Hok Htab Hwf.
  split; [now apply UpdateColorTransferFunction_multi |].
  split; [now apply UpdateOpacityTransferFunction_multi |].
  destruct (GPURender_completes p r v img a w Hin Hsc Hok Htab Hwf)
    as (v' & w' & Hrun & Hdraw & _ & _ & _ & Hv & _).
  exists w'. rewrite (Hv Hn) in Hrun. now split.
Qed.

(** A fresh mapper on RGBA data. *)
Lemma table_update_failure_is_only_logged_witness :
  NumberOfComponents rgba_scalars <> 1 /\
  no_assertion_fires sample_platform rgba_scalars = true /\
  tables_created (Implementation (this (world_with rgba_scalars COMPOSITE_BLEND))) /\
  vtkInternal.wf (Implementation (this (world_with rgba_scalars COMPOSITE_BLEND))) /\
  exists w' : World,
    GPURender sample_platform (Some sample_renderer) (Some rgba_volume)
      (world_with rgba_scalars COMPOSITE_BLEND)
    = (Val (Some rgba_volume), w') /\
    draw_calls (log w') = [36].
Proof.
  assert (Hn : NumberOfComponents rgba_scalars <> 1) by discriminate.
  assert (Ht : tables_created
                 (Implementation (this (world_with rgba_scalars COMPOSITE_BLEND))))
    by (intros H; discriminate H).
  assert (Hw : vtkInternal.wf
                 (Implementation (this (world_with rgba_scalars COMPOSITE_BLEND))))
    by (repeat split).
  split; [exact Hn |]. split; [reflexivity |].
  split; [exact Ht |]. split; [exact Hw |].
  destruct (table_update_failure_is_only_logged sample_platform
              sample_renderer rgba_volume (with_scalars rgba_scalars 0)
              rgba_scalars 0 (world_with rgba_scalars COMPOSITE_BLEND)
              Hn eq_refl eq_refl eq_refl Ht Hw) as (_ & _ & w' & Hrun & Hdraw).
  exists w'. split; [exact Hrun | exact Hdraw].
Defined.
